(** * Last.fm library exporter: the fetch client and the export pipeline

    A shallow embedding of [lastfm_client.py] and [exporter.py].

    - JSON documents decoded by [response.json()] are the inductive type
      [value]; Python dictionaries are finite maps with string keys.
    - The network and the file system are the environment: a [World] gives
      the outcome of the k-th HTTP GET and of the k-th file-system
      operation, and the reading of the clock.
    - Built-in and library functions the program only calls ([int] on a
      string, [str], [json.dump], [csv.writer], [pathlib]'s [/]) are the
      fields of the class [Runtime]; every result below holds for all of
      their behaviours.
    - The generator [_iter_paginated] is run to exhaustion and described by
      the sequence of requests it sends and items it yields. *)

From Stdlib Require Import ZArith String Ascii List Lia.
From Stdlib Require Import Floats.SpecFloat DecimalString.
From stdpp Require Import gmap strings list fin_maps.

Set Warnings "-register-all".

(** ** Python values *)

(** What [json.loads] produces: [None], [bool], [int], [float], [str],
    [list] and [dict] with string keys.  A float is kept in its IEEE-754
    form: sign, mantissa and exponent, or zero, infinity, NaN. *)
Inductive value :=
| VNone
| VBool (b : bool)
| VInt (z : Z)
| VFloat (f : spec_float)
| VStr (s : string)
| VList (l : list value)
| VDict (d : gmap string value).

(** The exceptions the two modules raise or let through. *)
Inductive exn :=
| LastFMError (msg : string)
| AttributeError
| TypeError
| ValueError
| OverflowError
| OSError (msg : string).

(** A computation that returns or raises. *)
Inductive result (A : Type) :=
| Ok (a : A)
| Raise (e : exn).
Arguments Ok {A} a.
Arguments Raise {A} e.

#[global] Instance result_ret : MRet result := fun A a => Ok a.
#[global] Instance result_bind : MBind result := fun A B f m =>
  match m with
  | Ok a => f a
  | Raise e => Raise e
  end.

(** Functions of the Python runtime and standard library that the program
    calls and that are outside the repository. *)
Class Runtime := {
  (** [int(s)] for a [str]; [None] stands for [ValueError]. *)
  int_of_str : string -> option Z;
  (** [str(v)] for a value that is not a [str]. *)
  str_of : value -> string;
  (** the text [json.dump(obj, f, ensure_ascii=False, indent=2)] writes. *)
  json_dumps : value -> string;
  (** [json.load]; [None] stands for a decoding error. *)
  json_loads : string -> option value;
  (** the line [csv.writer(f).writerow(row)] writes. *)
  csv_line : list value -> string;
  (** [pathlib]: [directory / name]. *)
  path_join : string -> string -> string;
}.

Section Builtins.
Context {rt : Runtime}.

(** Truth value of an object, as [or] and [if] test it. *)
Definition truthy (v : value) : bool :=
  match v with
  | VNone => false
  | VBool b => b
  | VInt z => negb (z =? 0)%Z
  | VFloat (S754_zero _) => false
  | VFloat _ => true
  | VStr s => negb (String.eqb s "")
  | VList l => match l with [] => false | _ :: _ => true end
  | VDict d => negb (Nat.eqb (size d) 0)
  end.

(** [x or y]. *)
Definition py_or (x y : value) : value := if truthy x then x else y.

(** [isinstance(v, dict)] and [isinstance(v, str)]. *)
Definition is_dict (v : value) : bool :=
  match v with VDict _ => true | _ => false end.
Definition is_str (v : value) : bool :=
  match v with VStr _ => true | _ => false end.

(** [v.get(key, default)]: only a [dict] has the method. *)
Definition py_get (v : value) (key : string) (dflt : value) : result value :=
  match v with
  | VDict d => Ok (default dflt (d !! key))
  | _ => Raise AttributeError
  end.

(** [str(v)], the identity on strings; also what an f-string inserts. *)
Definition py_str (v : value) : string :=
  match v with
  | VStr s => s
  | _ => str_of v
  end.

(** The integer a finite float [(-1)^s * m * 2^e] truncates to. *)
Definition float_trunc (s : bool) (m : positive) (e : Z) : Z :=
  let a := Z.shiftl (Z.pos m) e in
  if s then (- a)%Z else a.

(** [int(v)]. *)
Definition py_int (v : value) : result Z :=
  match v with
  | VBool b => Ok (if b then 1 else 0)%Z
  | VInt z => Ok z
  | VFloat (S754_zero _) => Ok 0%Z
  | VFloat (S754_finite s m e) => Ok (float_trunc s m e)
  | VFloat (S754_infinity _) => Raise OverflowError
  | VFloat S754_nan => Raise ValueError
  | VStr s => match int_of_str s with
              | Some z => Ok z
              | None => Raise ValueError
              end
  | VNone | VList _ | VDict _ => Raise TypeError
  end.

(** The items [for item in v] goes through. *)
Definition py_iter (v : value) : result (list value) :=
  match v with
  | VList l => Ok l
  | VStr s => Ok (map (fun c => VStr (String c "")) (list_ascii_of_string s))
  | VDict d => Ok (map (fun kv => VStr (fst kv)) (map_to_list d))
    (* the keys; their order is not modelled, no caller iterates a dict *)
  | VNone | VBool _ | VInt _ | VFloat _ => Raise TypeError
  end.

End Builtins.

(** ** lastfm_client.py *)

Definition API_ROOT : string := "http://ws.audioscrobbler.com/2.0/".

(** 15.0 *)
Definition DEFAULT_TIMEOUT : spec_float := S754_finite false 15 0.

Record LastFMClient := {
  api_key : string;
  timeout : spec_float;
}.

(** What [requests.get] followed by [response.json()] can come to. *)
Inductive http_outcome :=
| RequestException (exc : string)
| HttpResponse (ok : bool) (status_code : Z) (reason : string)
               (json : option value).

(** What a run of the generator does, in order. *)
Inductive gen_event :=
| Requested (query : gmap string value)
| Yielded (item : value).

(** How a run ends: the generator is exhausted, an exception leaves it, or
    the bound on the number of loop passes was reached first. *)
Inductive ending :=
| Exhausted
| Failed (e : exn)
| Unfinished.

(** One pass through the [while] loop either leaves the loop or goes on
    to the next page with the total number of pages known. *)
Inductive control :=
| Leave (how : ending)
| NextPage (total_pages : Z).

Section Client.
Context {rt : Runtime}.
Variable self : LastFMClient.

(** The query string of a request: [query.update(params)]. *)
Definition request_query (method_name : string)
    (params : gmap string value) : gmap string value :=
  params ∪ {[ "method" := VStr method_name;
              "api_key" := VStr (api_key self);
              "format" := VStr "json" ]}.

(** [_request], given what the GET came to. *)
Definition _request (outcome : http_outcome) : result value :=
  match outcome with
  | RequestException exc =>
      Raise (LastFMError ("Network error calling Last.fm: " +:+ exc))
  | HttpResponse ok status_code reason json =>
      if negb ok then
        Raise (LastFMError ("HTTP error from Last.fm: "
                            +:+ py_str (VInt status_code) +:+ " " +:+ reason))
      else
        match json with
        | None =>
            Raise (LastFMError "Failed to decode JSON from Last.fm response")
        | Some data =>
            match data with
            | VDict d =>
                match d !! "error" with
                | Some code =>
                    let message :=
                      default (VStr "Unknown Last.fm error") (d !! "message") in
                    Raise (LastFMError ("Last.fm API error " +:+ py_str code
                                        +:+ ": " +:+ py_str message))
                | None => Ok data
                end
            | _ => Ok data
            end
        end
  end.

Section Paginated.
Variables (method_name user root_key list_key : string).
Variable limit_per_page : Z.
Variable extra_params : gmap string value.
(** [responses k] is what the k-th request of the run comes to. *)
Variable responses : nat -> http_outcome.

Definition page_params (current_page : Z) : gmap string value :=
  extra_params ∪ {[ "user" := VStr user;
                    "limit" := VInt limit_per_page;
                    "page" := VInt current_page ]}.

Definition missing_key_message : string :=
  "Unexpected response: key '" +:+ root_key +:+ "' missing "
  +:+ "for method " +:+ method_name.

(** [container = data.get(root_key)], and the check that follows. *)
Definition page_container (data : value) : result value :=
  container ← py_get data root_key VNone;
  match container with
  | VNone => Raise (LastFMError missing_key_message)
  | _ => Ok container
  end.

(** The items of a page: [container.get(list_key, [])], a single
    mapping wrapped in a list, then iterated. *)
Definition page_items (container : value) : result (list value) :=
  items ← py_get container list_key (VList []);
  let items := if is_dict items then VList [items] else items in
  py_iter items.

(** [total_pages_str]: the attributes of the page, and in them the
    field under one of its two spellings. *)
Definition total_pages_field (container : value) : result value :=
  attr ← py_get container "@attr" (VDict ∅);
  a ← py_get attr "totalPages" VNone;
  b ← py_get attr "totalpages" VNone;
  Ok (py_or a b).

(** The block under [if total_pages is None]. *)
Definition read_total_pages (container : value) : result Z :=
  total_pages_str ← total_pages_field container;
  match total_pages_str with
  | VNone => Ok 1%Z
  | _ =>
      match py_int total_pages_str with
      | Ok n => Ok n
      | Raise TypeError | Raise ValueError => Ok 1%Z
      | Raise e => Raise e
      end
  end.

(** A request answered by a page: the container and its items. *)
Definition fetch_page (outcome : http_outcome)
    : result (value * list value) :=
  data ← _request outcome;
  container ← page_container data;
  items ← page_items container;
  Ok (container, items).

(** What the pass for one page does: the request, then the items. *)
Definition page_events (current_page : Z) (items : list value)
    : list gen_event :=
  Requested (request_query method_name (page_params current_page))
  :: map Yielded items.

(** The passes for [m] pages in a row, from the n-th request on, when
    these requests are answered by pages with the items [items n],
    [items (n + 1)], ... *)
Fixpoint pages_events (m n : nat) (current_page : Z)
    (items : nat -> list value) : list gen_event :=
  match m with
  | O => []
  | S m' =>
      page_events current_page (items n)
      ++ pages_events m' (S n) (current_page + 1)%Z items
  end.

(** The body of the [while True] loop for the n-th request. *)
Definition loop_body (n : nat) (current_page : Z)
    (total_pages : option Z) : list gen_event * control :=
  let sent := Requested (request_query method_name (page_params current_page)) in
  match _request (responses n) with
  | Raise e => ([sent], Leave (Failed e))
  | Ok data =>
      match page_container data with
      | Raise e => ([sent], Leave (Failed e))
      | Ok container =>
          match page_items container with
          | Raise e => ([sent], Leave (Failed e))
          | Ok items =>
              let events := sent :: map Yielded items in
              let total :=
                match total_pages with
                | None => read_total_pages container
                | Some t => Ok t
                end in
              match total with
              | Raise e => (events, Leave (Failed e))
              | Ok t =>
                  if (current_page >=? t)%Z
                  then (events, Leave Exhausted)
                  else (events, NextPage t)
              end
          end
      end
  end.

(** The loop, for at most [fuel] passes. *)
Fixpoint paginate (fuel : nat) (n : nat) (current_page : Z)
    (total_pages : option Z) : list gen_event * ending :=
  match fuel with
  | O => ([], Unfinished)
  | S fuel' =>
      match loop_body n current_page total_pages with
      | (events, Leave how) => (events, how)
      | (events, NextPage t) =>
          let '(rest, how) :=
            paginate fuel' (S n) (current_page + 1)%Z (Some t) in
          (events ++ rest, how)
      end
  end.

(** [_iter_paginated]: [current_page = 1], [total_pages = None]. *)
Definition _iter_paginated (fuel : nat) : list gen_event * ending :=
  paginate fuel 0 1%Z None.

End Paginated.
End Client.

(** ** The environment *)

(** Effects on the outside world, in the order they happen. *)
Inductive event :=
| HttpGet (url : string) (params : gmap string value) (timeout : spec_float)
| Mkdir (path : string)
| OpenW (path : string)
| WriteText (path : string) (text : string).

Record World := {
  (** what the k-th GET comes to *)
  responses : nat -> http_outcome;
  (** the exception the k-th file-system call raises, if any *)
  fs_faults : nat -> option exn;
  (** [datetime.now(timezone.utc).isoformat()] *)
  utc_now : string;
}.

Record io_state := {
  requests_sent : nat;
  fs_calls : nat;
  log : list event;
}.

Definition initial_state : io_state :=
  {| requests_sent := 0; fs_calls := 0; log := [] |}.

(** An effectful call returns, raises, or is cut short by the bound on
    loop passes. *)
Inductive outcome (A : Type) :=
| Returned (a : A)
| Raised (e : exn)
| OutOfFuel.
Arguments Returned {A} a.
Arguments Raised {A} e.
Arguments OutOfFuel {A}.

Definition IO (A : Type) : Type := io_state -> io_state * outcome A.

#[global] Instance IO_ret : MRet IO := fun A a st => (st, Returned a).
#[global] Instance IO_bind : MBind IO := fun A B f m st =>
  match m st with
  | (st', Returned a) => f a st'
  | (st', Raised e) => (st', Raised e)
  | (st', OutOfFuel) => (st', OutOfFuel)
  end.

(** The log of [st'] continues the log of [st]; a call is monotone when
    it only ever adds to the log. *)
Definition extends (st st' : io_state) : Prop :=
  exists later, log st' = log st ++ later.

Definition monotone {A : Type} (m : IO A) : Prop :=
  forall st, extends st (fst (m st)).

(** A pure computation inside an effectful one. *)
Definition lift {A : Type} (r : result A) : IO A := fun st =>
  match r with
  | Ok a => (st, Returned a)
  | Raise e => (st, Raised e)
  end.

(** [for x in l: body(x)]. *)
Fixpoint io_for {A : Type} (l : list A) (body : A -> IO unit) : IO unit :=
  match l with
  | [] => mret tt
  | x :: l' => _ ← body x; io_for l' body
  end.

(** The queries sent and the items yielded in a run of a generator. *)
Fixpoint queries_of (events : list gen_event) : list (gmap string value) :=
  match events with
  | [] => []
  | Requested q :: rest => q :: queries_of rest
  | Yielded _ :: rest => queries_of rest
  end.

Fixpoint items_of (events : list gen_event) : list value :=
  match events with
  | [] => []
  | Requested _ :: rest => items_of rest
  | Yielded item :: rest => item :: items_of rest
  end.

(** The effects on the file system among the effects of a run. *)
Fixpoint fs_events (l : list event) : list event :=
  match l with
  | [] => []
  | HttpGet _ _ _ :: l' => fs_events l'
  | ev :: l' => ev :: fs_events l'
  end.

(** [record.get(key, "")]. *)
Definition cell (record : gmap string value) (key : string) : value :=
  default (VStr "") (record !! key).

(** The artist column of an album, in the words of the specification:
    the string itself, the name field of a mapping, and the empty string
    for a missing field or any other shape. *)
Definition artist_column (album : gmap string value) : value :=
  match album !! "artist" with
  | Some (VStr s) => VStr s
  | Some (VDict artist) => default (VStr "") (artist !! "name")
  | _ => VStr ""
  end.

Section Operations.
Context {rt : Runtime}.
Variable w : World.

(** A call into the file system: it raises what the environment says, or
    takes effect. *)
Definition fs_call (ev : event) : IO unit := fun st =>
  match fs_faults w (fs_calls st) with
  | Some e =>
      ({| requests_sent := requests_sent st;
          fs_calls := S (fs_calls st);
          log := log st |}, Raised e)
  | None =>
      ({| requests_sent := requests_sent st;
          fs_calls := S (fs_calls st);
          log := log st ++ [ev] |}, Returned tt)
  end.

Definition now_isoformat : IO string := fun st => (st, Returned (utc_now w)).

Section ClientOperations.
Variable self : LastFMClient.

(** [for item in generator: acc.append(item)], then [return acc]. *)
Definition collect
    (gen : (nat -> http_outcome) -> list gen_event * ending)
    : IO (list value) := fun st =>
  let '(events, how) :=
    gen (fun k => responses w (requests_sent st + k)) in
  let queries := queries_of events in
  let st' :=
    {| requests_sent := requests_sent st + length queries;
       fs_calls := fs_calls st;
       log := log st
              ++ map (fun q => HttpGet API_ROOT q (timeout self)) queries |} in
  (st', match how with
        | Exhausted => Returned (items_of events)
        | Failed e => Raised e
        | Unfinished => OutOfFuel
        end).

Definition get_user_artists (fuel : nat) (user : string)
    (limit_per_page : Z) : IO (list value) :=
  collect (fun rs =>
    _iter_paginated self "library.getartists" user "artists" "artist"
                    limit_per_page ∅ rs fuel).

Definition get_user_albums (fuel : nat) (user : string)
    (limit_per_page : Z) (artist_filter : option string)
    : IO (list value) :=
  let extra_params : gmap string value :=
    match artist_filter with
    | Some a => if truthy (VStr a) then {[ "artist" := VStr a ]} else ∅
    | None => ∅
    end in
  collect (fun rs =>
    _iter_paginated self "library.getalbums" user "albums" "album"
                    limit_per_page extra_params rs fuel).

End ClientOperations.

(** ** exporter.py *)

Record ExportResult := {
  artists_count : nat;
  albums_count : nat;
  json_path : option string;
  artists_csv_path : option string;
  albums_csv_path : option string;
}.

Record LastFMLibraryExporter := {
  client : LastFMClient;
  username : string;
}.

Definition artist_fieldnames : list string :=
  ["name"; "mbid"; "playcount"; "url"; "streamable"; "tagcount"].

Definition album_fieldnames : list string :=
  ["name"; "artist"; "mbid"; "playcount"; "url"].

(** [csv.DictWriter]: the cells of a row, in the order of the field
    names; a key outside the field names is refused, a missing one
    gives the empty string. *)
Definition dict_to_list (fieldnames : list string)
    (rowdict : gmap string value) : result (list value) :=
  if decide (dom rowdict ⊆ list_to_set fieldnames)
  then Ok (map (fun key => default (VStr "") (rowdict !! key)) fieldnames)
  else Raise ValueError.

Definition writeheader (csv_path : string) (fieldnames : list string)
    : IO unit :=
  fs_call (WriteText csv_path (csv_line (map VStr fieldnames))).

Definition writerow (csv_path : string) (fieldnames : list string)
    (rowdict : gmap string value) : IO unit :=
  cells ← lift (dict_to_list fieldnames rowdict);
  fs_call (WriteText csv_path (csv_line cells)).

Definition _extract_album_artist (album : value) : result value :=
  artist_value ← py_get album "artist" (VStr "");
  if is_dict artist_value then py_get artist_value "name" (VStr "")
  else if is_str artist_value then Ok artist_value
  else Ok (VStr "").

Definition artist_row (artist : value) : result (gmap string value) :=
  name ← py_get artist "name" (VStr "");
  mbid ← py_get artist "mbid" (VStr "");
  playcount ← py_get artist "playcount" (VStr "");
  url ← py_get artist "url" (VStr "");
  streamable ← py_get artist "streamable" (VStr "");
  tagcount ← py_get artist "tagcount" (VStr "");
  Ok ({[ "name" := name; "mbid" := mbid; "playcount" := playcount;
         "url" := url; "streamable" := streamable;
         "tagcount" := tagcount ]} : gmap string value).

Definition album_row (album : value) : result (gmap string value) :=
  name ← py_get album "name" (VStr "");
  artist ← _extract_album_artist album;
  mbid ← py_get album "mbid" (VStr "");
  playcount ← py_get album "playcount" (VStr "");
  url ← py_get album "url" (VStr "");
  Ok ({[ "name" := name; "artist" := artist; "mbid" := mbid;
         "playcount" := playcount; "url" := url ]} : gmap string value).

Definition _write_artists_csv (artists : list value) (csv_path : string)
    : IO unit :=
  _ ← fs_call (OpenW csv_path);
  _ ← writeheader csv_path artist_fieldnames;
  io_for artists (fun artist =>
    row ← lift (artist_row artist);
    writerow csv_path artist_fieldnames row).

Definition _write_albums_csv (albums : list value) (csv_path : string)
    : IO unit :=
  _ ← fs_call (OpenW csv_path);
  _ ← writeheader csv_path album_fieldnames;
  io_for albums (fun album =>
    row ← lift (album_row album);
    writerow csv_path album_fieldnames row).

Definition export_payload (user exported_at : string)
    (artists albums : list value) : gmap string value :=
  {[ "user" := VStr user;
     "exported_at" := VStr exported_at;
     "artists" := VList artists;
     "albums" := VList albums ]}.

Definition export_library (fuel : nat) (self : LastFMLibraryExporter)
    (output_dir base_name : string) (write_json write_csv : bool)
    (artists_per_page albums_per_page : Z) : IO ExportResult :=
  _ ← fs_call (Mkdir output_dir);
  artists ← get_user_artists (client self) fuel (username self)
                             artists_per_page;
  albums ← get_user_albums (client self) fuel (username self)
                           albums_per_page None;
  exported_at ← now_isoformat;
  let payload := export_payload (username self) exported_at artists albums in
  json_path ←
    (if write_json then
       let json_path := path_join output_dir (base_name +:+ ".json") in
       _ ← fs_call (OpenW json_path);
       _ ← fs_call (WriteText json_path (json_dumps (VDict payload)));
       mret (Some json_path)
     else mret None);
  csv_paths ←
    (if write_csv then
       let artists_csv_path :=
         path_join output_dir (base_name +:+ "_artists.csv") in
       let albums_csv_path :=
         path_join output_dir (base_name +:+ "_albums.csv") in
       _ ← _write_artists_csv artists artists_csv_path;
       _ ← _write_albums_csv albums albums_csv_path;
       mret (Some artists_csv_path, Some albums_csv_path)
     else mret (None, None));
  mret {| artists_count := length artists;
          albums_count := length albums;
          json_path := json_path;
          artists_csv_path := fst csv_paths;
          albums_csv_path := snd csv_paths |}.

End Operations.

(** ** A reference runtime

    One implementation of the functions of [Runtime], used to run the
    program on concrete inputs: Python's grammar for [int] on ASCII text,
    [json] with [indent=2] for documents without floats (the members of an
    object are written in the order of the map), [csv] with minimal
    quoting. *)


Module Reference.

Definition string_of_Z (z : Z) : string :=
  NilZero.string_of_int (Z.to_int z).

Definition chr (n : nat) : string := String (ascii_of_nat n) "".

Definition is_space (c : ascii) : bool :=
  match nat_of_ascii c with
  | 9 | 10 | 11 | 12 | 13 | 32 => true
  | _ => false
  end.

Definition digit_of (c : ascii) : option Z :=
  let n := nat_of_ascii c in
  if (48 <=? n) && (n <=? 57) then Some (Z.of_nat (n - 48)) else None.

Fixpoint lstrip (s : string) : string :=
  match s with
  | String c s' => if is_space c then lstrip s' else s
  | EmptyString => EmptyString
  end.

Definition strip (s : string) : string :=
  String.rev (lstrip (String.rev (lstrip s))).

(** Decimal digits, with single underscores between them. *)
Fixpoint digits (acc : Z) (after_digit : bool) (s : string) : option Z :=
  match s with
  | EmptyString => if after_digit then Some acc else None
  | String c s' =>
      match digit_of c with
      | Some d => digits (10 * acc + d) true s'
      | None =>
          if Ascii.eqb c "_" && after_digit then digits acc false s'
          else None
      end
  end.

Definition parse_int (s : string) : option Z :=
  match strip s with
  | String "-" s' => Z.opp <$> digits 0 false s'
  | String "+" s' => digits 0 false s'
  | s' => digits 0 false s'
  end.

(** *** JSON text *)

Definition hex_digit (n : nat) : string :=
  chr (if n <? 10 then 48 + n else 87 + n).

Definition quote : string := chr 34.
Definition backslash : string := chr 92.

Definition json_char (c : ascii) : string :=
  let n := nat_of_ascii c in
  match n with
  | 34 => backslash +:+ quote
  | 92 => backslash +:+ backslash
  | 8 => backslash +:+ "b"
  | 9 => backslash +:+ "t"
  | 10 => backslash +:+ "n"
  | 12 => backslash +:+ "f"
  | 13 => backslash +:+ "r"
  | _ => if n <? 32
         then backslash +:+ "u00" +:+ hex_digit (n / 16) +:+ hex_digit (n mod 16)
         else String c ""
  end.

Fixpoint json_chars (s : string) : string :=
  match s with
  | EmptyString => EmptyString
  | String c s' => json_char c +:+ json_chars s'
  end.

Definition json_string (s : string) : string :=
  quote +:+ json_chars s +:+ quote.

Definition json_float (f : spec_float) : string :=
  match f with
  | S754_nan => "NaN"
  | S754_infinity false => "Infinity"
  | S754_infinity true => "-Infinity"
  | S754_zero false => "0.0"
  | S754_zero true => "-0.0"
  | S754_finite s m e =>
      (if s then "-" else "") +:+ string_of_Z (Z.pos m)
      +:+ "p" +:+ string_of_Z e
  end.

(** [nl] is the line break followed by the current indentation. *)
Fixpoint json_encode (nl : string) (v : value) : string :=
  let nl' := nl +:+ "  " in
  match v with
  | VNone => "null"
  | VBool b => if b then "true" else "false"
  | VInt z => string_of_Z z
  | VFloat f => json_float f
  | VStr s => json_string s
  | VList [] => "[]"
  | VList l =>
      "[" +:+ nl' +:+ String.concat ("," +:+ nl') (map (json_encode nl') l)
      +:+ nl +:+ "]"
  | VDict d =>
      match map_to_list (json_encode nl' <$> d) with
      | [] => "{}"
      | members =>
          "{" +:+ nl'
          +:+ String.concat ("," +:+ nl')
                (map (fun kv => json_string (fst kv) +:+ ": " +:+ snd kv)
                     members)
          +:+ nl +:+ "}"
      end
  end.

Definition dumps (v : value) : string := json_encode (chr 10) v.

Fixpoint strip_prefix (p s : string) : option string :=
  match p, s with
  | EmptyString, _ => Some s
  | String a p', String b s' =>
      if Ascii.eqb a b then strip_prefix p' s' else None
  | String _ _, EmptyString => None
  end.

Definition hex_value (c : ascii) : option nat :=
  let n := nat_of_ascii c in
  if (48 <=? n) && (n <=? 57) then Some (n - 48)
  else if (97 <=? n) && (n <=? 102) then Some (n - 87)
  else if (65 <=? n) && (n <=? 70) then Some (n - 55)
  else None.

(** The character an escape letter stands for. *)
Definition unescape (e : ascii) : option nat :=
  match nat_of_ascii e with
  | 34 => Some 34
  | 92 => Some 92
  | 47 => Some 47
  | 98 => Some 8
  | 116 => Some 9
  | 110 => Some 10
  | 102 => Some 12
  | 114 => Some 13
  | _ => None
  end.

(** The characters of a string literal after its opening quote, and the
    text after its closing quote. *)
Fixpoint scan_string (s : string) : option (string * string) :=
  match s with
  | EmptyString => None
  | String c rest =>
      match nat_of_ascii c with
      | 34 => Some (EmptyString, rest)
      | 92 =>
          match rest with
          | String "u" (String "0" (String "0" (String h (String l rest')))) =>
              hi ← hex_value h;
              lo ← hex_value l;
              '(body, rest'') ← scan_string rest';
              Some (String (ascii_of_nat (16 * hi + lo)) body, rest'')
          | String e rest' =>
              n ← unescape e;
              '(body, rest'') ← scan_string rest';
              Some (String (ascii_of_nat n) body, rest'')
          | EmptyString => None
          end
      | _ =>
          '(body, rest') ← scan_string rest;
          Some (String c body, rest')
      end
  end.

Fixpoint scan_digits (acc : Z) (s : string) : Z * string :=
  match s with
  | String c s' =>
      match digit_of c with
      | Some d => scan_digits (10 * acc + d) s'
      | None => (acc, s)
      end
  | EmptyString => (acc, s)
  end.

(** An integer literal; a fraction or an exponent is not read. *)
Definition scan_number (s : string) : option (Z * string) :=
  let '(negative, s1) :=
    match s with
    | String "-" s' => (true, s')
    | _ => (false, s)
    end in
  match s1 with
  | String c _ =>
      match digit_of c with
      | Some _ =>
          let '(n, rest) := scan_digits 0 s1 in
          match rest with
          | String "." _ | String "e" _ | String "E" _ => None
          | _ => Some (if negative then (- n)%Z else n, rest)
          end
      | None => None
      end
  | EmptyString => None
  end.

Definition skip_ws : string -> string := lstrip.

(** A JSON value at the head of the text, and the text that follows.
    [fuel] bounds the number of values and separators read. *)
Fixpoint parse_value (fuel : nat) (s : string) : option (value * string) :=
  match fuel with
  | O => None
  | S fuel' =>
      match skip_ws s with
      | String c rest =>
          match nat_of_ascii c with
          | 34 => '(body, rest') ← scan_string rest; Some (VStr body, rest')
          | 91 =>
              match skip_ws rest with
              | String "]" rest' => Some (VList [], rest')
              | _ => '(l, rest') ← parse_elements fuel' rest;
                     Some (VList l, rest')
              end
          | 123 =>
              match skip_ws rest with
              | String "}" rest' => Some (VDict ∅, rest')
              | _ => '(d, rest') ← parse_members fuel' rest;
                     Some (VDict d, rest')
              end
          | _ =>
              match strip_prefix "null" (String c rest),
                    strip_prefix "true" (String c rest),
                    strip_prefix "false" (String c rest) with
              | Some rest', _, _ => Some (VNone, rest')
              | _, Some rest', _ => Some (VBool true, rest')
              | _, _, Some rest' => Some (VBool false, rest')
              | _, _, _ =>
                  '(n, rest') ← scan_number (String c rest);
                  Some (VInt n, rest')
              end
          end
      | EmptyString => None
      end
  end
with parse_elements (fuel : nat) (s : string)
    : option (list value * string) :=
  match fuel with
  | O => None
  | S fuel' =>
      '(v, rest) ← parse_value fuel' s;
      match skip_ws rest with
      | String "," rest' =>
          '(l, rest'') ← parse_elements fuel' rest';
          Some (v :: l, rest'')
      | String "]" rest' => Some ([v], rest')
      | _ => None
      end
  end
with parse_members (fuel : nat) (s : string)
    : option (gmap string value * string) :=
  match fuel with
  | O => None
  | S fuel' =>
      match skip_ws s with
      | String c rest =>
          if Nat.eqb (nat_of_ascii c) 34 then
            '(key, rest1) ← scan_string rest;
            match skip_ws rest1 with
            | String ":" rest2 =>
                '(v, rest3) ← parse_value fuel' rest2;
                match skip_ws rest3 with
                | String "," rest4 =>
                    '(d, rest5) ← parse_members fuel' rest4;
                    (* a later member with the same name wins *)
                    Some (d ∪ {[ key := v ]}, rest5)
                | String "}" rest4 => Some ({[ key := v ]}, rest4)
                | _ => None
                end
            | _ => None
            end
          else None
      | EmptyString => None
      end
  end.

Definition loads (s : string) : option value :=
  '(v, rest) ← parse_value (2 * String.length s + 2) s;
  match skip_ws rest with
  | EmptyString => Some v
  | _ => None
  end.

(** *** Other library functions *)

(** [str] of the values that occur in messages and table cells; a
    container is shown as its JSON text. *)
Definition str (v : value) : string :=
  match v with
  | VNone => "None"
  | VBool b => if b then "True" else "False"
  | VInt z => string_of_Z z
  | VStr s => s
  | VFloat S754_nan => "nan"
  | VFloat (S754_infinity s) => if s then "-inf" else "inf"
  | _ => dumps v
  end.

Fixpoint needs_quotes (s : string) : bool :=
  match s with
  | EmptyString => false
  | String c s' =>
      match nat_of_ascii c with
      | 34 | 44 | 10 | 13 => true
      | _ => needs_quotes s'
      end
  end.

Fixpoint double_quotes (s : string) : string :=
  match s with
  | EmptyString => EmptyString
  | String c s' =>
      (if Nat.eqb (nat_of_ascii c) 34 then quote else EmptyString)
      +:+ String c (double_quotes s')
  end.

Definition csv_field (v : value) : string :=
  let s := match v with VNone => EmptyString | _ => str v end in
  if needs_quotes s then quote +:+ double_quotes s +:+ quote else s.

(** A record of the [excel] dialect: fields joined by commas, quoted
    where they must be, and ended by CR LF. *)
Definition writerow_text (row : list value) : string :=
  (match row with
   | [v] => match csv_field v with
            | EmptyString => quote +:+ quote
            | s => s
            end
   | _ => String.concat "," (map csv_field row)
   end) +:+ chr 13 +:+ chr 10.

Definition joinpath (directory name : string) : string :=
  directory +:+ "/" +:+ name.

Definition runtime : Runtime :=
  {| int_of_str := parse_int;
     str_of := str;
     json_dumps := dumps;
     json_loads := loads;
     csv_line := writerow_text;
     path_join := joinpath |}.

End Reference.

(** ** gui.py *)

(** Functions of the Python runtime that the window calls. *)
Class Host := {
  (** [s.strip()] *)
  py_strip : string -> string;
  (** [Path(s)], as the string the path prints as *)
  py_path : string -> string;
}.

(** What the click handler reads from the window: the text of the four
    line edits and the current index of the format box. *)
Record MainWindow := {
  api_key_edit : string;
  username_edit : string;
  output_dir_edit : string;
  base_name_edit : string;
  format_combo : Z;
}.

(** What the handlers do to the window, in order: the message boxes, the
    message of the status bar, the state of the export button. *)
Inductive gui_call :=
| MessageBoxWarning (title text : string)
| MessageBoxCritical (title text : string)
| MessageBoxInformation (title text : string)
| ShowMessage (text : string)
| SetEnabled (enabled : bool).

Definition newline : string := String (ascii_of_nat 10) "".

(** The events that only a request, and only a file, leave in the log. *)
Definition is_http (ev : event) : Prop :=
  match ev with HttpGet _ _ _ => True | _ => False end.

Definition is_file_event (ev : event) : Prop :=
  match ev with OpenW _ | WriteText _ _ => True | _ => False end.

(** A call adds to the log, and only events of one kind. *)
Definition emits {A : Type} (P : event -> Prop) (m : IO A) : Prop :=
  forall st, exists later,
    log (fst (m st)) = log st ++ later /\ Forall P later.

Section Gui.
Context {rt : Runtime} {host : Host}.
Variable w : World.

(** [on_browse_clicked], given the directory the dialog returned (the
    empty string when it was cancelled). *)
Definition on_browse_clicked (directory : string) (self : MainWindow)
    : MainWindow :=
  if truthy (VStr directory)
  then {| api_key_edit := api_key_edit self;
          username_edit := username_edit self;
          output_dir_edit := directory;
          base_name_edit := base_name_edit self;
          format_combo := format_combo self |}
  else self.

(** The text of the box shown after an export. *)
Definition export_summary (username : string) (result : ExportResult)
    : string :=
  let msg_lines :=
    ["Exported library for user: " +:+ username;
     "Artists: " +:+ py_str (VInt (Z.of_nat (artists_count result)));
     "Albums:  " +:+ py_str (VInt (Z.of_nat (albums_count result)))] in
  let msg_lines :=
    match json_path result with
    | Some p => msg_lines ++ ["JSON file: " +:+ p]
    | None => msg_lines
    end in
  let msg_lines :=
    match artists_csv_path result with
    | Some p => msg_lines ++ ["Artists CSV: " +:+ p]
    | None => msg_lines
    end in
  let msg_lines :=
    match albums_csv_path result with
    | Some p => msg_lines ++ ["Albums CSV:  " +:+ p]
    | None => msg_lines
    end in
  String.concat newline msg_lines.

(** [on_export_clicked]: the calls on the window, the state of the
    outside world afterwards, and how the handler ends. *)
Definition on_export_clicked (fuel : nat) (self : MainWindow)
    (st : io_state) : list gui_call * (io_state * outcome unit) :=
  let api_key := py_strip (api_key_edit self) in
  let username := py_strip (username_edit self) in
  let output_dir_str := py_strip (output_dir_edit self) in
  let base_name :=
    if truthy (VStr (py_strip (base_name_edit self)))
    then py_strip (base_name_edit self)
    else "lastfm_export" in
  if negb (truthy (VStr api_key)) then
    ([MessageBoxWarning "Missing API key"
        "Please enter your Last.fm API key."], (st, Returned tt))
  else if negb (truthy (VStr username)) then
    ([MessageBoxWarning "Missing username"
        "Please enter the Last.fm username."], (st, Returned tt))
  else if negb (truthy (VStr output_dir_str)) then
    ([MessageBoxWarning "Missing output directory"
        "Please choose an output directory."], (st, Returned tt))
  else
    let output_dir := py_path output_dir_str in
    let idx := format_combo self in
    let write_json := (idx =? 0)%Z || (idx =? 2)%Z in
    let write_csv := (idx =? 1)%Z || (idx =? 2)%Z in
    let started := [SetEnabled false; ShowMessage "Exporting..."] in
    let client := {| api_key := api_key; timeout := DEFAULT_TIMEOUT |} in
    let exporter := {| client := client; username := username |} in
    match export_library w fuel exporter output_dir base_name
                         write_json write_csv 1000 1000 st with
    | (st', Raised (LastFMError msg)) =>
        (started
         ++ [MessageBoxCritical "Last.fm error"
               ("An error occurred while talking to Last.fm:"
                +:+ newline +:+ newline +:+ msg);
             ShowMessage "Error";
             SetEnabled true],
         (st', Returned tt))
    | (st', Raised (OSError msg)) =>
        (started
         ++ [MessageBoxCritical "File error"
               ("An error occurred while writing files:"
                +:+ newline +:+ newline +:+ msg);
             ShowMessage "Error";
             SetEnabled true],
         (st', Returned tt))
    | (st', Raised e) =>
        (started ++ [SetEnabled true], (st', Raised e))
    | (st', Returned result) =>
        (started
         ++ [MessageBoxInformation "Export complete"
               (export_summary username result);
             ShowMessage "Export complete";
             SetEnabled true],
         (st', Returned tt))
    | (st', OutOfFuel) => (started, (st', OutOfFuel))
    end.

End Gui.

(** What the handler makes of the window before it starts the export:
    the exporter, the directory, the stem of the file names and the two
    formats. *)
Definition entered_exporter {host : Host} (self : MainWindow)
    : LastFMLibraryExporter :=
  {| client := {| api_key := py_strip (api_key_edit self);
                  timeout := DEFAULT_TIMEOUT |};
     username := py_strip (username_edit self) |}.

Definition entered_directory {host : Host} (self : MainWindow) : string :=
  py_path (py_strip (output_dir_edit self)).

Definition entered_base_name {host : Host} (self : MainWindow) : string :=
  if String.eqb (py_strip (base_name_edit self)) ""
  then "lastfm_export"
  else py_strip (base_name_edit self).

Definition asks_json (self : MainWindow) : bool :=
  (format_combo self =? 0)%Z || (format_combo self =? 2)%Z.

Definition asks_csv (self : MainWindow) : bool :=
  (format_combo self =? 1)%Z || (format_combo self =? 2)%Z.

(** The three fields the handler insists on are filled in. *)
Definition filled_in {host : Host} (self : MainWindow) : Prop :=
  py_strip (api_key_edit self) <> ""
  /\ py_strip (username_edit self) <> ""
  /\ py_strip (output_dir_edit self) <> "".

(** A host for the sample runs: ASCII white space is stripped, a path
    prints as it was typed. *)
Definition reference_host : Host :=
  {| py_strip := Reference.strip; py_path := fun s => s |}.

(** The extra parameters reach [_request] as keyword arguments, beside
    [self] and [method_name]: with one of them under either name the call
    itself is refused, before any request.  The two callers pass no such
    name. *)
Definition keyword_safe (extra_params : gmap string value) : Prop :=
  extra_params !! "self" = None /\ extra_params !! "method_name" = None.

(** A value a [for] loop cannot go through: [None], a boolean, a
    number. *)
Definition is_scalar (v : value) : bool :=
  match v with
  | VNone | VBool _ | VInt _ | VFloat _ => true
  | VStr _ | VList _ | VDict _ => false
  end.

(** The events that writing a table of records leaves in the log: the
    file opened, the header, one row for each record. *)
Definition artists_table {rt : Runtime} (csv_path : string)
    (records : list (gmap string value)) : list event :=
  OpenW csv_path
  :: WriteText csv_path (csv_line (VStr <$> artist_fieldnames))
  :: ((fun r => WriteText csv_path (csv_line (cell r <$> artist_fieldnames)))
        <$> records).

Definition albums_table {rt : Runtime} (csv_path : string)
    (records : list (gmap string value)) : list event :=
  OpenW csv_path
  :: WriteText csv_path (csv_line (VStr <$> album_fieldnames))
  :: ((fun r =>
         WriteText csv_path
           (csv_line [cell r "name"; artist_column r; cell r "mbid";
                      cell r "playcount"; cell r "url"]))
        <$> records).

(** ** Sample data

    The scenario of the specification: user alice, two pages of artists
    (two items and [totalPages = 2] on the first, one item on the
    second), and one page of albums. *)

Definition sample_client : LastFMClient :=
  {| api_key := "0123456789abcdef"; timeout := DEFAULT_TIMEOUT |}.

Definition ok_response (body : value) : http_outcome :=
  HttpResponse true 200 "OK" (Some body).

Definition radiohead_fields : gmap string value :=
  {[ "name" := VStr "Radiohead"; "playcount" := VStr "312";
     "mbid" := VStr "a74b1b7f";
     "url" := VStr "https://www.last.fm/music/Radiohead" ]}.

Definition portishead_fields : gmap string value :=
  {[ "name" := VStr "Portishead"; "playcount" := VStr "87" ]}.

Definition low_fields : gmap string value :=
  {[ "name" := VStr "Low"; "playcount" := VStr "5" ]}.

Definition radiohead : value := VDict radiohead_fields.
Definition portishead : value := VDict portishead_fields.
Definition low : value := VDict low_fields.

Definition artists_page (items total : value) : value :=
  VDict {[ "artists" :=
             VDict {[ "artist" := items;
                      "@attr" := VDict {[ "totalPages" := total ]} ]} ]}.

(** Two pages; the second holds its only item as a single mapping. *)
Definition two_pages (k : nat) : http_outcome :=
  match k with
  | 0 => ok_response (artists_page (VList [radiohead; portishead]) (VStr "2"))
  | 1 => ok_response (artists_page low (VStr "2"))
  | _ => RequestException "connection refused"
  end.

(** A server with many pages that reports a total of zero. *)
Definition zero_total (k : nat) : http_outcome :=
  ok_response (artists_page (VList [radiohead; portishead]) (VStr "0")).

(** A first page whose total is the number [1e999], which [json] reads
    as the float infinity. *)
Definition infinite_total (k : nat) : http_outcome :=
  ok_response (artists_page (VList [radiohead]) (VFloat (S754_infinity false))).

(** A first page with no attributes at all. *)
Definition no_attributes (k : nat) : http_outcome :=
  ok_response (VDict {[ "artists" := VDict {[ "artist" := VList [radiohead; low] ]} ]}).

(** A response without the container. *)
Definition no_container (k : nat) : http_outcome :=
  ok_response (VDict {[ "albums" := VDict ∅ ]}).

(** A server that serves the same page for ever and reports two pages. *)
Definition endless_pages (k : nat) : http_outcome :=
  ok_response (artists_page (VList [radiohead]) (VStr "2")).

(** The container and the items of the k-th page of [two_pages]. *)
Definition two_pages_container (k : nat) : value :=
  match k with
  | 0 => VDict {[ "artist" := VList [radiohead; portishead];
                  "@attr" := VDict {[ "totalPages" := VStr "2" ]} ]}
  | _ => VDict {[ "artist" := low;
                  "@attr" := VDict {[ "totalPages" := VStr "2" ]} ]}
  end.

Definition two_pages_items (k : nat) : list value :=
  match k with
  | 0 => [radiohead; portishead]
  | _ => [low]
  end.

(** A remote error, and an album page, for the scenario. *)
Definition error_response : http_outcome :=
  ok_response (VDict {[ "error" := VInt 6; "message" := VStr "User not found" ]}).

Definition ok_computer : value :=
  VDict {[ "name" := VStr "OK Computer";
           "artist" := VDict {[ "name" := VStr "Radiohead"; "mbid" := VStr "x" ]};
           "playcount" := VStr "120" ]}.

Definition dummy : value :=
  VDict {[ "name" := VStr "Dummy"; "artist" := VStr "Portishead" ]}.

Definition albums_page : value :=
  VDict {[ "albums" := VDict {[ "album" := VList [ok_computer; dummy] ]} ]}.

(** Two pages of artists, then one page of albums; no file-system
    fault. *)
Definition sample_world : World :=
  {| responses := fun k =>
       match k with
       | 0 | 1 => two_pages k
       | _ => ok_response albums_page
       end;
     fs_faults := fun _ => None;
     utc_now := "2024-05-01T12:00:00+00:00" |}.

(** The artists are served, the albums are refused. *)
Definition failing_world : World :=
  {| responses := fun k =>
       match k with
       | 0 | 1 => two_pages k
       | _ => error_response
       end;
     fs_faults := fun _ => None;
     utc_now := "2024-05-01T12:00:00+00:00" |}.

Definition sample_exporter : LastFMLibraryExporter :=
  {| client := sample_client; username := "alice" |}.

(** A first page whose attributes are a JSON null. *)
Definition null_attributes (k : nat) : http_outcome :=
  ok_response
    (VDict {[ "artists" :=
                VDict {[ "artist" := VList [radiohead];
                         "@attr" := VNone ]} ]}).

(** A page whose items are a number. *)
Definition scalar_items (k : nat) : http_outcome :=
  ok_response (VDict {[ "artists" := VDict {[ "artist" := VInt 5 ]} ]}).

(** Three pages are announced; the server is down from the second
    request on. *)
Definition second_page_fails (k : nat) : http_outcome :=
  match k with
  | 0 => ok_response (artists_page (VList [radiohead; portishead]) (VStr "3"))
  | _ => HttpResponse false 503 "Service Unavailable" None
  end.

Definition three_pages_container : value :=
  VDict {[ "artist" := VList [radiohead; portishead];
           "@attr" := VDict {[ "totalPages" := VStr "3" ]} ]}.

Definition ok_computer_fields : gmap string value :=
  {[ "name" := VStr "OK Computer";
     "artist" := VDict {[ "name" := VStr "Radiohead"; "mbid" := VStr "x" ]};
     "playcount" := VStr "120" ]}.

Definition dummy_fields : gmap string value :=
  {[ "name" := VStr "Dummy"; "artist" := VStr "Portishead" ]}.

(** The worlds of the further runs: a server that goes down, one that
    refuses the user, one that sends an infinite total; a directory that
    cannot be made, and a disk that is full once the document is
    written. *)
Definition flaky_world : World :=
  {| responses := second_page_fails;
     fs_faults := fun _ => None;
     utc_now := "2024-05-01T12:00:00+00:00" |}.


Definition overflowing_world : World :=
  {| responses := infinite_total;
     fs_faults := fun _ => None;
     utc_now := "2024-05-01T12:00:00+00:00" |}.

Definition read_only_world : World :=
  {| responses := responses sample_world;
     fs_faults := fun k =>
       match k with
       | 0 => Some (OSError "[Errno 30] Read-only file system: 'out'")
       | _ => None
       end;
     utc_now := "2024-05-01T12:00:00+00:00" |}.

Definition full_disk_world : World :=
  {| responses := responses sample_world;
     fs_faults := fun k =>
       match k with
       | 3 => Some (OSError "[Errno 28] No space left on device")
       | _ => None
       end;
     utc_now := "2024-05-01T12:00:00+00:00" |}.

(** The window as a user fills it in: white space around the key, no
    base name, both formats. *)
Definition sample_window : MainWindow :=
  {| api_key_edit := " 0123456789abcdef ";
     username_edit := "alice";
     output_dir_edit := "out";
     base_name_edit := "  ";
     format_combo := 2 |}.

(** The same window with a user name of blanks only. *)
Definition nameless_window : MainWindow :=
  {| api_key_edit := "0123456789abcdef";
     username_edit := "   ";
     output_dir_edit := "out";
     base_name_edit := "lib";
     format_combo := 0 |}.

(** * Properties *)

(** ** The pagination primitive *)

Section PaginationFacts.
Context {rt : Runtime}.
Variable self : LastFMClient.
Variables (method_name user root_key list_key : string).
Variable limit_per_page : Z.
Variable extra_params : gmap string value.
Variable responses : nat -> http_outcome.

Local Abbreviation body :=
  (loop_body self method_name user root_key list_key limit_per_page
             extra_params responses).
Local Abbreviation run :=
  (paginate self method_name user root_key list_key limit_per_page
            extra_params responses).
Local Abbreviation generator :=
  (_iter_paginated self method_name user root_key list_key limit_per_page
                   extra_params responses).
Local Abbreviation fetch := (fetch_page method_name root_key list_key).
Local Abbreviation pass_events :=
  (page_events self method_name user limit_per_page extra_params).
Local Abbreviation passes :=
  (pages_events self method_name user limit_per_page extra_params).
Local Abbreviation query_of_page p :=
  (request_query self method_name
     (page_params user limit_per_page extra_params p)).

(** What a pass does when the request is answered by a page. *)
Lemma loop_body_page n current_page total_pages container items :
  fetch (responses n) = Ok (container, items) ->
  body n current_page total_pages =
    (pass_events current_page items,
     match match total_pages with
           | None => read_total_pages container
           | Some t => Ok t
           end with
     | Raise e => Leave (Failed e)
     | Ok t => if (current_page >=? t)%Z then Leave Exhausted else NextPage t
     end).
Proof.
  unfold fetch_page, loop_body, page_events. intros H.
  destruct (_request (responses n)) as [data|e]; simpl in H; [|discriminate].
  destruct (page_container method_name root_key data) as [c|e];
    simpl in H; [|discriminate].
  destruct (page_items list_key c) as [its|e]; simpl in H; [|discriminate].
  injection H as -> ->.
  destruct total_pages as [t|]; [|destruct (read_total_pages container)];
    try destruct (_ >=? _)%Z; reflexivity.
Qed.

(** What a pass does when the request is not answered by a page. *)
Lemma loop_body_no_page n current_page total_pages e :
  fetch (responses n) = Raise e ->
  body n current_page total_pages =
    ([Requested (query_of_page current_page)], Leave (Failed e)).
Proof.
  unfold fetch_page, loop_body. intros H.
  destruct (_request (responses n)) as [data|e']; simpl in H;
    [|injection H as ->; reflexivity].
  destruct (page_container method_name root_key data) as [c|e'];
    simpl in H; [|injection H as ->; reflexivity].
  destruct (page_items list_key c) as [its|e']; simpl in H;
    [discriminate|injection H as ->; reflexivity].
Qed.

(** A pass always sends its request first. *)
Lemma loop_body_sends n current_page total_pages :
  exists rest,
    fst (body n current_page total_pages)
    = Requested (query_of_page current_page) :: rest.
Proof.
  destruct (fetch (responses n)) as [[c its]|e] eqn:H.
  - rewrite (loop_body_page _ _ _ _ _ H). eexists. reflexivity.
  - rewrite (loop_body_no_page _ _ _ _ H). eexists. reflexivity.
Qed.

(** A pass never ends the run as unfinished: only the bound does. *)
Lemma loop_body_finishes n current_page total_pages events :
  body n current_page total_pages <> (events, Leave Unfinished).
Proof.
  destruct (fetch (responses n)) as [[c its]|e] eqn:H.
  - rewrite (loop_body_page _ _ _ _ _ H).
    destruct total_pages as [t|]; [|destruct (read_total_pages c)];
      try destruct (_ >=? _)%Z; congruence.
  - rewrite (loop_body_no_page _ _ _ _ H). congruence.
Qed.

(** The loop goes on only while the page number is below the total, and
    once the total is known it is never changed. *)
Lemma loop_body_next n current_page total_pages events t :
  body n current_page total_pages = (events, NextPage t) ->
  (current_page < t)%Z /\
  (forall t0, total_pages = Some t0 -> t = t0).
Proof.
  destruct (fetch (responses n)) as [[c its]|e] eqn:H.
  - rewrite (loop_body_page _ _ _ _ _ H).
    destruct total_pages as [t0|]; [|destruct (read_total_pages c) as [t0|]];
      try destruct (Z.geb_spec current_page t0); intros [= <- <-];
      (split; [lia | congruence]).
  - rewrite (loop_body_no_page _ _ _ _ H). congruence.
Qed.

Lemma paginate_S fuel n current_page total_pages :
  run (S fuel) n current_page total_pages =
    match body n current_page total_pages with
    | (events, Leave how) => (events, how)
    | (events, NextPage t) =>
        (events ++ fst (run fuel (S n) (current_page + 1)%Z (Some t)),
         snd (run fuel (S n) (current_page + 1)%Z (Some t)))
    end.
Proof.
  simpl. destruct (body n current_page total_pages) as [events [how|t]];
    [reflexivity|].
  destruct (paginate _ _ _ _ _ _ _ _ fuel _ _ _); reflexivity.
Qed.

(** With the total known and reached exactly by the pages that follow,
    the loop fetches these pages and stops. *)
Lemma paginate_pages m : forall n current_page T containers items fuel,
  (forall k, n <= k < n + S m ->
             fetch (responses k) = Ok (containers k, items k)) ->
  T = (current_page + Z.of_nat m)%Z ->
  S m <= fuel ->
  run fuel n current_page (Some T)
  = (passes (S m) n current_page items, Exhausted).
Proof.
  induction m as [|m IH]; intros n cur T containers items fuel Hpages HT Hfuel;
    (destruct fuel as [|fuel]; [lia|]);
    rewrite paginate_S, (loop_body_page _ _ _ (containers n) (items n))
      by (apply Hpages; lia).
  - replace (cur >=? T)%Z with true by (symmetry; apply Z.geb_le; lia).
    simpl. rewrite app_nil_r. reflexivity.
  - replace (cur >=? T)%Z with false
      by (symmetry; rewrite Z.geb_leb; apply Z.leb_gt; lia).
    rewrite (IH (S n) (cur + 1)%Z T containers items fuel);
      [reflexivity | intros; apply Hpages; lia | lia | lia].
Qed.

(** With the total known, the loop is over after at most
    [T - current_page + 1] passes, whatever the responses are. *)
Lemma paginate_settles m : forall n current_page T fuel,
  (T - current_page <= Z.of_nat m)%Z ->
  S m <= fuel ->
  run fuel n current_page (Some T) = run (S m) n current_page (Some T)
  /\ snd (run (S m) n current_page (Some T)) <> Unfinished.
Proof.
  induction m as [|m IH]; intros n cur T fuel HT Hfuel;
    (destruct fuel as [|fuel]; [lia|]); rewrite !paginate_S;
    destruct (body n cur (Some T)) as [events [how|t]] eqn:Hbody.
  - split; [reflexivity|]. simpl. intros ->.
    exact (loop_body_finishes _ _ _ _ Hbody).
  - apply loop_body_next in Hbody as [Hlt Heq].
    specialize (Heq T eq_refl). lia.
  - split; [reflexivity|]. simpl. intros ->.
    exact (loop_body_finishes _ _ _ _ Hbody).
  - apply loop_body_next in Hbody as [Hlt Heq].
    rewrite (Heq T eq_refl).
    destruct (IH (S n) (cur + 1)%Z T fuel) as [-> Hend]; [lia|lia|].
    split; [reflexivity | exact Hend].
Qed.

(** A run that is over stays as it is when more passes are allowed. *)
Lemma paginate_fuel_mono fuel : forall n current_page total_pages fuel',
  snd (run fuel n current_page total_pages) <> Unfinished ->
  fuel <= fuel' ->
  run fuel' n current_page total_pages = run fuel n current_page total_pages.
Proof.
  induction fuel as [|fuel IH]; intros n cur tot fuel' Hover Hle.
  - simpl in Hover. congruence.
  - destruct fuel' as [|fuel']; [lia|]. rewrite !paginate_S in *.
    destruct (body n cur tot) as [events [how|t]]; [reflexivity|].
    simpl in Hover. rewrite (IH _ _ _ fuel') by (auto; lia). reflexivity.
Qed.

(** The first pass, when the first request is answered by a page whose
    total is read as [T]. *)
Lemma iter_paginated_first fuel container items T :
  fetch (responses 0) = Ok (container, items) ->
  read_total_pages container = Ok T ->
  generator (S fuel) =
    if (1 >=? T)%Z then (pass_events 1 items, Exhausted)
    else (pass_events 1 items ++ fst (run fuel 1 2%Z (Some T)),
          snd (run fuel 1 2%Z (Some T))).
Proof.
  intros Hpage Htotal. unfold _iter_paginated.
  rewrite paginate_S, (loop_body_page _ _ _ _ _ Hpage), Htotal.
  destruct (1 >=? T)%Z; reflexivity.
Qed.

(** The run over the first pages of a sequence of pages. *)
Lemma iter_paginated_pages (pages : nat) containers items T fuel :
  (forall k, k < pages -> fetch (responses k) = Ok (containers k, items k)) ->
  read_total_pages (containers 0) = Ok T ->
  pages = Z.to_nat (Z.max 1 T) ->
  pages <= fuel ->
  generator fuel = (passes pages 0 1%Z items, Exhausted).
Proof.
  intros Hpages Htotal -> Hfuel.
  destruct fuel as [|fuel]; [lia|].
  rewrite (iter_paginated_first fuel (containers 0) (items 0) T)
    by (auto; apply Hpages; lia).
  destruct (Z.geb_spec 1 T) as [Hle|Hgt].
  - replace (Z.max 1 T) with 1%Z by lia. simpl. rewrite app_nil_r. reflexivity.
  - replace (Z.to_nat (Z.max 1 T)) with (S (S (Z.to_nat (T - 2)))) in * by lia.
    rewrite (paginate_pages (Z.to_nat (T - 2)) 1 2%Z T containers items fuel);
      [reflexivity | intros; apply Hpages; lia | lia | lia].
Qed.

(** *** Requests and items of a run *)

Lemma queries_of_app (e1 e2 : list gen_event) :
  queries_of (e1 ++ e2) = queries_of e1 ++ queries_of e2.
Proof.
  induction e1 as [|[q|v] e1 IH]; simpl; [reflexivity| |assumption].
  rewrite IH. reflexivity.
Qed.

Lemma items_of_app (e1 e2 : list gen_event) :
  items_of (e1 ++ e2) = items_of e1 ++ items_of e2.
Proof.
  induction e1 as [|[q|v] e1 IH]; simpl; [reflexivity|assumption|].
  rewrite IH. reflexivity.
Qed.

Lemma queries_of_yielded (l : list value) : queries_of (map Yielded l) = [].
Proof. induction l; simpl; auto. Qed.

Lemma items_of_yielded (l : list value) : items_of (map Yielded l) = l.
Proof. induction l; simpl; congruence. Qed.

Lemma queries_of_page current_page items :
  queries_of (pass_events current_page items) = [query_of_page current_page].
Proof. unfold page_events. simpl. rewrite queries_of_yielded. reflexivity. Qed.

Lemma items_of_page current_page items :
  items_of (pass_events current_page items) = items.
Proof. unfold page_events. simpl. apply items_of_yielded. Qed.

Lemma queries_of_pages m : forall n current_page items,
  queries_of (passes m n current_page items)
  = (fun j => query_of_page (Z.of_nat j + current_page)%Z) <$> seq 0 m.
Proof.
  induction m as [|m IH]; intros n cur items; [reflexivity|].
  cbn [pages_events]. rewrite queries_of_app, queries_of_page, IH.
  cbn [seq fmap list_fmap app]. f_equal.
  rewrite <- fmap_S_seq, <- list_fmap_compose.
  apply list_fmap_ext. intros _ j _. simpl. f_equal. f_equal. lia.
Qed.

Lemma items_of_pages m : forall n current_page items,
  items_of (passes m n current_page items) = concat (items <$> seq n m).
Proof.
  induction m as [|m IH]; intros n cur items; [reflexivity|].
  cbn [pages_events]. rewrite items_of_app, items_of_page, IH. reflexivity.
Qed.

(** The page number a request carries, unless the extra parameters
    override it. *)
Lemma query_page_number current_page :
  extra_params !! "page" = None ->
  query_of_page current_page !! "page" = Some (VInt current_page).
Proof.
  intros Hextra. unfold request_query, page_params.
  rewrite !lookup_union, Hextra. reflexivity.
Qed.

(** The total that is read when the field holds an integer. *)
Lemma read_total_pages_parsed container s T :
  total_pages_field container = Ok s ->
  py_int s = Ok T ->
  read_total_pages container = Ok T.
Proof.
  unfold read_total_pages. intros -> Hint. simpl.
  destruct s; simpl in Hint |- *; try discriminate; rewrite ?Hint; auto.
Qed.

(** The total that is assumed when the field is missing or [int] refuses
    it with one of the two exceptions the code catches. *)
Lemma read_total_pages_assumed container s :
  total_pages_field container = Ok s ->
  s = VNone \/ py_int s = Raise TypeError \/ py_int s = Raise ValueError ->
  read_total_pages container = Ok 1%Z.
Proof.
  unfold read_total_pages. intros -> Hs. simpl.
  destruct Hs as [->|[H|H]]; [reflexivity| |]; rewrite H;
    destruct s; reflexivity.
Qed.

(** Neither caller passes a page number of its own: the artists are
    fetched with no extra parameter, the albums with at most the artist
    filter. *)
Lemma callers_leave_page_alone (artist_filter : string) :
  (∅ : gmap string value) !! "page" = None
  /\ ({[ "artist" := VStr artist_filter ]} : gmap string value) !! "page"
     = None.
Proof. split; reflexivity. Qed.

(** *** The claims about [_iter_paginated] *)

(** C1. When the attributes of the first page report a total [P >= 1]
    that [int] accepts, and the first [P] requests are answered by pages,
    the generator sends exactly [P] requests, for the pages 1 to [P] in
    increasing order, and yields the items of these pages, page after
    page; it then stops.  The page number of a request is its [page]
    parameter, which the extra parameters of the two callers never set. *)
Theorem iter_paginated_fetches_all_pages
    (P : Z) (s : value) (containers : nat -> value)
    (items : nat -> list value) (fuel : nat) :
  extra_params !! "page" = None ->
  (forall k, k < Z.to_nat P ->
             fetch (responses k) = Ok (containers k, items k)) ->
  total_pages_field (containers 0) = Ok s ->
  py_int s = Ok P ->
  (1 <= P)%Z ->
  Z.to_nat P <= fuel ->
  exists events,
    generator fuel = (events, Exhausted)
    /\ events = passes (Z.to_nat P) 0 1%Z items
    /\ length (queries_of events) = Z.to_nat P
    /\ (fun q => q !! "page") <$> queries_of events
       = (fun p => Some (VInt p)) <$> seqZ 1 P
    /\ items_of events = concat (items <$> seq 0 (Z.to_nat P)).
Proof.
  intros Hextra Hpages Hfield Hint HP Hfuel.
  exists (passes (Z.to_nat P) 0 1%Z items).
  split; [|split; [reflexivity|]].
  - apply (iter_paginated_pages _ containers items P); auto.
    + eapply read_total_pages_parsed; eauto.
    + f_equal. lia.
  - rewrite queries_of_pages, items_of_pages. repeat split.
    + rewrite length_fmap, length_seq. reflexivity.
    + unfold seqZ. rewrite <- !list_fmap_compose.
      apply list_fmap_ext. intros _ j _. simpl.
      apply query_page_number, Hextra.
Qed.

(** C10. A total below one, such as the string "0", neither hides the
    items of the first page nor fails: one request, the items of the first
    page, and the end. *)
Theorem iter_paginated_total_below_one
    (P : Z) (s container : value) (items : list value) (fuel : nat) :
  fetch (responses 0) = Ok (container, items) ->
  total_pages_field container = Ok s ->
  py_int s = Ok P ->
  (P < 1)%Z ->
  1 <= fuel ->
  generator fuel = (pass_events 1 items, Exhausted)
  /\ queries_of (pass_events 1 items) = [query_of_page 1]
  /\ items_of (pass_events 1 items) = items.
Proof.
  intros Hpage Hfield Hint HP Hfuel.
  split; [|split; [apply queries_of_page | apply items_of_page]].
  destruct fuel as [|fuel]; [lia|].
  rewrite (iter_paginated_first fuel container items P)
    by (auto; eapply read_total_pages_parsed; eauto).
  replace (1 >=? P)%Z with true by (symmetry; apply Z.geb_le; lia).
  reflexivity.
Qed.

(** The part of C7 that holds: a total that is missing, or that [int]
    refuses with [TypeError] or [ValueError], counts as one page. *)
Lemma iter_paginated_assumes_one_page
    (s container : value) (items : list value) (fuel : nat) :
  fetch (responses 0) = Ok (container, items) ->
  total_pages_field container = Ok s ->
  s = VNone \/ py_int s = Raise TypeError \/ py_int s = Raise ValueError ->
  1 <= fuel ->
  generator fuel = (pass_events 1 items, Exhausted).
Proof.
  intros Hpage Hfield Hs Hfuel.
  destruct fuel as [|fuel]; [lia|].
  rewrite (iter_paginated_first fuel container items 1)
    by (auto; eapply read_total_pages_assumed; eauto).
  reflexivity.
Qed.

(** C5. When the mapping a request returns does not hold the container
    key, the pass raises [LastFMError] with a message that names the key
    and the method; the run ends there, with no other request, whatever
    the state of the loop and the responses that would follow. *)
Theorem missing_container_is_fatal
    (n : nat) (current_page : Z) (total_pages : option Z)
    (data : gmap string value) (fuel : nat) :
  _request (responses n) = Ok (VDict data) ->
  data !! root_key = None ->
  run (S fuel) n current_page total_pages
  = ([Requested (query_of_page current_page)],
     Failed (LastFMError ("Unexpected response: key '" +:+ root_key
                          +:+ "' missing for method " +:+ method_name))).
Proof.
  intros Hdata Hkey. rewrite paginate_S.
  rewrite (loop_body_no_page _ _ _
             (LastFMError (missing_key_message method_name root_key))).
  - reflexivity.
  - unfold fetch_page, page_container. rewrite Hdata.
    unfold mbind, result_bind, py_get. rewrite Hkey. reflexivity.
Qed.

(** C6. The items of a page: a single mapping under the item key is one
    item, a missing key is an empty page and no error, a list gives its
    elements in order; a string gives its characters and anything else is
    not iterable.  A pass yields exactly these items after its request. *)
Theorem page_items_shape (container : gmap string value) :
  page_items list_key (VDict container)
  = match container !! list_key with
    | None => Ok []
    | Some (VDict m) => Ok [VDict m]
    | Some (VList l) => Ok l
    | Some (VStr s) =>
        Ok ((fun c => VStr (String c "")) <$> list_ascii_of_string s)
    | Some _ => Raise TypeError
    end
  /\ forall n current_page total_pages items,
       fetch (responses n) = Ok (VDict container, items) ->
       page_items list_key (VDict container) = Ok items
       /\ fst (body n current_page total_pages)
          = Requested (query_of_page current_page) :: map Yielded items.
Proof.
  split.
  - unfold page_items. simpl.
    destruct (container !! list_key) as [[]|]; reflexivity.
  - intros n cur tot items Hpage. split.
    + unfold fetch_page in Hpage.
      destruct (_request (responses n)) as [data|]; [|discriminate].
      simpl in Hpage.
      destruct (page_container method_name root_key data) as [c|];
        [|discriminate].
      simpl in Hpage.
      destruct (page_items list_key c) as [its|] eqn:Hits; [|discriminate].
      simpl in Hpage. injection Hpage as -> ->. exact Hits.
    + rewrite (loop_body_page _ _ _ _ _ Hpage). reflexivity.
Qed.

(** C8. The loop always ends.  For every sequence of responses there is a
    number of passes after which the run is over; a pass goes on to the
    next page only while the page number is below the total, and never
    changes a total that is known; and when every response is a page, the
    run makes exactly [max 1 T] passes for the total [T] read on the first
    page: nothing is asked of the responses after these, so a server that
    has more pages than it reports is cut short without an error. *)
Theorem iter_paginated_terminates :
  (exists bound, forall fuel, bound <= fuel ->
     generator fuel = generator bound
     /\ snd (generator bound) <> Unfinished)
  /\ (forall n current_page total_pages events t,
        body n current_page total_pages = (events, NextPage t) ->
        (current_page < t)%Z
        /\ (forall t0, total_pages = Some t0 -> t = t0)
        /\ forall fuel,
             run (S fuel) n current_page total_pages
             = (events ++ fst (run fuel (S n) (current_page + 1)%Z (Some t)),
                snd (run fuel (S n) (current_page + 1)%Z (Some t))))
  /\ (forall containers items T fuel,
        (forall k, k < Z.to_nat (Z.max 1 T) ->
                   fetch (responses k) = Ok (containers k, items k)) ->
        read_total_pages (containers 0) = Ok T ->
        Z.to_nat (Z.max 1 T) <= fuel ->
        generator fuel
        = (passes (Z.to_nat (Z.max 1 T)) 0 1%Z items, Exhausted)).
Proof.
  split; [|split].
  - unfold _iter_paginated.
    destruct (body 0 1%Z None) as [events [how|t]] eqn:Hbody.
    + exists 1. intros [|fuel] Hfuel; [lia|]. rewrite !paginate_S, Hbody.
      split; [reflexivity|]. simpl. intros ->.
      exact (loop_body_finishes _ _ _ _ Hbody).
    + exists (S (S (Z.to_nat (t - 2)))).
      intros [|fuel] Hfuel; [lia|]. rewrite !paginate_S, Hbody.
      destruct (paginate_settles (Z.to_nat (t - 2)) 1 (1 + 1)%Z t fuel)
        as [-> Hend]; [lia|lia|].
      split; [reflexivity | exact Hend].
  - intros n cur tot events t Hbody.
    destruct (loop_body_next _ _ _ _ _ Hbody) as [Hlt Hfixed].
    repeat split; auto.
    intros fuel. rewrite paginate_S, Hbody. reflexivity.
  - intros containers items T fuel Hpages Htotal Hfuel.
    apply (iter_paginated_pages _ containers items T); auto.
Qed.

End PaginationFacts.

(** *** The claims on the sample data *)

Lemma iter_paginated_fetches_all_pages_witness :
  exists events,
    _iter_paginated (rt := Reference.runtime) sample_client
      "library.getartists" "alice" "artists" "artist" 1000 ∅ two_pages 2
    = (events, Exhausted)
    /\ events
       = pages_events sample_client "library.getartists" "alice" 1000 ∅
           (Z.to_nat 2) 0 1%Z two_pages_items
    /\ length (queries_of events) = Z.to_nat 2
    /\ (fun q => q !! "page") <$> queries_of events
       = (fun p => Some (VInt p)) <$> seqZ 1 2
    /\ items_of events = concat (two_pages_items <$> seq 0 (Z.to_nat 2)).
Proof.
  apply (iter_paginated_fetches_all_pages (rt := Reference.runtime)
           sample_client "library.getartists" "alice" "artists" "artist"
           1000 ∅ two_pages 2 (VStr "2") two_pages_container
           two_pages_items 2).
  - reflexivity.
  - intros [|[|k]] Hk; [vm_compute; reflexivity | vm_compute; reflexivity |].
    simpl in Hk. lia.
  - vm_compute. reflexivity.
  - vm_compute. reflexivity.
  - lia.
  - simpl. lia.
Defined.

Lemma iter_paginated_total_below_one_witness :
  _iter_paginated (rt := Reference.runtime) sample_client
    "library.getartists" "alice" "artists" "artist" 1000 ∅ zero_total 3
  = (page_events sample_client "library.getartists" "alice" 1000 ∅ 1
       [radiohead; portishead], Exhausted)
  /\ queries_of (page_events sample_client "library.getartists" "alice"
                   1000 ∅ 1 [radiohead; portishead])
     = [request_query sample_client "library.getartists"
          (page_params "alice" 1000 ∅ 1)]
  /\ items_of (page_events sample_client "library.getartists" "alice"
                 1000 ∅ 1 [radiohead; portishead])
     = [radiohead; portishead].
Proof.
  apply (iter_paginated_total_below_one (rt := Reference.runtime)
           sample_client "library.getartists" "alice" "artists" "artist"
           1000 ∅ zero_total 0 (VStr "0")
           (VDict {[ "artist" := VList [radiohead; portishead];
                     "@attr" := VDict {[ "totalPages" := VStr "0" ]} ]})).
  - vm_compute. reflexivity.
  - vm_compute. reflexivity.
  - vm_compute. reflexivity.
  - lia.
  - lia.
Defined.

Lemma missing_container_is_fatal_witness :
  paginate (rt := Reference.runtime) sample_client "library.getartists"
    "alice" "artists" "artist" 1000 ∅ no_container 5 0 1%Z None
  = ([Requested (request_query sample_client "library.getartists"
                   (page_params "alice" 1000 ∅ 1))],
     Failed (LastFMError ("Unexpected response: key '" +:+ "artists"
                          +:+ "' missing for method "
                          +:+ "library.getartists"))).
Proof.
  apply (missing_container_is_fatal (rt := Reference.runtime) sample_client
           "library.getartists" "alice" "artists" "artist" 1000 ∅
           no_container 0 1%Z None {[ "albums" := VDict ∅ ]} 4).
  - vm_compute. reflexivity.
  - vm_compute. reflexivity.
Defined.

Lemma page_items_shape_witness :
  page_items "artist"
    (VDict {[ "artist" := low;
              "@attr" := VDict {[ "totalPages" := VStr "2" ]} ]})
  = Ok [low]
  /\ fst (loop_body (rt := Reference.runtime) sample_client
            "library.getartists" "alice" "artists" "artist" 1000 ∅
            two_pages 1 2%Z (Some 2%Z))
     = Requested (request_query sample_client "library.getartists"
                    (page_params "alice" 1000 ∅ 2))
       :: map Yielded [low].
Proof.
  apply (proj2 (page_items_shape (rt := Reference.runtime) sample_client
                  "library.getartists" "alice" "artists" "artist" 1000 ∅
                  two_pages
                  {[ "artist" := low;
                     "@attr" := VDict {[ "totalPages" := VStr "2" ]} ]})
               1 2%Z (Some 2%Z) [low]).
  vm_compute. reflexivity.
Defined.

Lemma iter_paginated_terminates_witness :
  _iter_paginated (rt := Reference.runtime) sample_client
    "library.getartists" "alice" "artists" "artist" 1000 ∅ endless_pages 7
  = (pages_events sample_client "library.getartists" "alice" 1000 ∅
       (Z.to_nat (Z.max 1 2)) 0 1%Z (fun _ => [radiohead]), Exhausted).
Proof.
  apply (proj2 (proj2 (iter_paginated_terminates (rt := Reference.runtime)
                  sample_client "library.getartists" "alice" "artists"
                  "artist" 1000 ∅ endless_pages))
               (fun _ => VDict {[ "artist" := VList [radiohead];
                                  "@attr" := VDict {[ "totalPages" := VStr "2" ]} ]})
               (fun _ => [radiohead]) 2%Z 7).
  - intros k _. vm_compute. reflexivity.
  - vm_compute. reflexivity.
  - simpl. lia.
Defined.

(** C7, on a first page whose total is the number [1e999]: [int] has no
    integer for it and raises [OverflowError], which the code does not
    catch; the run yields the items of the page and then fails, where the
    fallback to one page was to apply. *)
Theorem infinite_total_pages_overflows {rt : Runtime} (fuel : nat) :
  py_int (VFloat (S754_infinity false)) = Raise OverflowError
  /\ total_pages_field
       (VDict {[ "artist" := VList [radiohead];
                 "@attr" := VDict {[ "totalPages" :=
                                       VFloat (S754_infinity false) ]} ]})
     = Ok (VFloat (S754_infinity false))
  /\ _iter_paginated sample_client "library.getartists" "alice" "artists"
       "artist" 1000 ∅ infinite_total (S fuel)
     = (page_events sample_client "library.getartists" "alice" 1000 ∅ 1
          [radiohead], Failed OverflowError).
Proof.
  split; [reflexivity|]. split; [vm_compute; reflexivity|].
  unfold _iter_paginated. rewrite paginate_S.
  rewrite (loop_body_page _ _ _ _ _ _ _ _ _ _ _
             (VDict {[ "artist" := VList [radiohead];
                       "@attr" := VDict {[ "totalPages" :=
                                             VFloat (S754_infinity false) ]} ]})
             [radiohead]) by (vm_compute; reflexivity).
  vm_compute. reflexivity.
Qed.

(** ** The export pipeline *)

Section ExportFacts.
Context {rt : Runtime}.
Variable w : World.

(** Sequencing: what follows a call depends on how the call ends. *)
Lemma io_bind_eq {A B : Type} (m : IO A) (f : A -> IO B) (st : io_state) :
  (m ≫= f) st
  = match m st with
    | (st', Returned a) => f a st'
    | (st', Raised e) => (st', Raised e)
    | (st', OutOfFuel) => (st', OutOfFuel)
    end.
Proof. reflexivity. Qed.

Lemma io_bind_returned {A B : Type} (m : IO A) (f : A -> IO B) st st' a :
  m st = (st', Returned a) -> (m ≫= f) st = f a st'.
Proof. intros H. rewrite io_bind_eq, H. reflexivity. Qed.

Lemma io_bind_raised {A B : Type} (m : IO A) (f : A -> IO B) st st' e :
  m st = (st', Raised e) -> (m ≫= f) st = (st', Raised e).
Proof. intros H. rewrite io_bind_eq, H. reflexivity. Qed.

(** A call into the file system that meets no fault. *)
Lemma fs_call_ok (ev : event) (st : io_state) :
  fs_faults w (fs_calls st) = None ->
  fs_call w ev st
  = ({| requests_sent := requests_sent st;
        fs_calls := S (fs_calls st);
        log := log st ++ [ev] |}, Returned tt).
Proof. unfold fs_call. intros ->. reflexivity. Qed.

Lemma extends_refl st : extends st st.
Proof. exists []. rewrite app_nil_r. reflexivity. Qed.

Lemma extends_trans st1 st2 st3 :
  extends st1 st2 -> extends st2 st3 -> extends st1 st3.
Proof.
  intros [l1 H1] [l2 H2]. exists (l1 ++ l2).
  rewrite H2, H1, app_assoc. reflexivity.
Qed.

Lemma monotone_bind {A B : Type} (m : IO A) (f : A -> IO B) :
  monotone m -> (forall a, monotone (f a)) -> monotone (m ≫= f).
Proof.
  intros Hm Hf st. rewrite io_bind_eq. specialize (Hm st).
  destruct (m st) as [st' [a|e|]]; simpl in Hm; [|assumption|assumption].
  eapply extends_trans; [exact Hm | apply Hf].
Qed.

Lemma monotone_ret {A : Type} (a : A) : monotone (mret a).
Proof. intros st. apply extends_refl. Qed.

Lemma monotone_lift {A : Type} (r : result A) : monotone (lift r).
Proof. intros st. destruct r; apply extends_refl. Qed.

Lemma monotone_fs_call ev : monotone (fs_call w ev).
Proof.
  intros st. unfold fs_call.
  destruct (fs_faults w (fs_calls st)); simpl;
    [exists []; simpl; rewrite app_nil_r | eexists]; reflexivity.
Qed.

Lemma monotone_io_for {A : Type} (l : list A) (body : A -> IO unit) :
  (forall x, monotone (body x)) -> monotone (io_for l body).
Proof.
  intros Hbody. induction l as [|x l IH]; simpl.
  - apply (monotone_ret tt).
  - apply monotone_bind; auto.
Qed.

Lemma monotone_writerow csv_path fieldnames rowdict :
  monotone (writerow w csv_path fieldnames rowdict).
Proof.
  apply monotone_bind; [apply monotone_lift|].
  intros cells. apply monotone_fs_call.
Qed.



(** Fetching sends requests and touches no file. *)
Lemma collect_effects self gen st st' (out : outcome (list value)) :
  collect w self gen st = (st', out) ->
  fs_events (log st') = fs_events (log st) /\ fs_calls st' = fs_calls st.
Proof.
  unfold collect.
  destruct (gen _) as [events how]. intros [= <- _]. simpl.
  split; [|reflexivity].
  generalize (queries_of events). intros qs.
  induction (log st) as [|[] l IH]; simpl; try (f_equal; exact IH).
  - induction qs; simpl; auto.
  - exact IH.
Qed.

Lemma fs_events_app (l1 l2 : list event) :
  fs_events (l1 ++ l2) = fs_events l1 ++ fs_events l2.
Proof.
  induction l1 as [|[] l1 IH]; simpl; try rewrite IH; reflexivity.
Qed.

(** *** Rows of the tables *)

Lemma dict_to_list_artist (name mbid playcount url streamable tagcount : value) :
  dict_to_list artist_fieldnames
    {[ "name" := name; "mbid" := mbid; "playcount" := playcount;
       "url" := url; "streamable" := streamable; "tagcount" := tagcount ]}
  = Ok [name; mbid; playcount; url; streamable; tagcount].
Proof.
  unfold dict_to_list. rewrite decide_True; [reflexivity|].
  rewrite !dom_insert_L, dom_singleton_L. simpl. set_solver.
Qed.

Lemma dict_to_list_album (name artist mbid playcount url : value) :
  dict_to_list album_fieldnames
    {[ "name" := name; "artist" := artist; "mbid" := mbid;
       "playcount" := playcount; "url" := url ]}
  = Ok [name; artist; mbid; playcount; url].
Proof.
  unfold dict_to_list. rewrite decide_True; [reflexivity|].
  rewrite !dom_insert_L, dom_singleton_L. simpl. set_solver.
Qed.

Lemma extract_album_artist_column (album : gmap string value) :
  _extract_album_artist (VDict album) = Ok (artist_column album).
Proof.
  unfold _extract_album_artist, artist_column, py_get, mbind, result_bind.
  destruct (album !! "artist") as [[]|]; reflexivity.
Qed.

Lemma artist_cells (artist : gmap string value) :
  (row ← artist_row (VDict artist); dict_to_list artist_fieldnames row)
  = Ok (cell artist <$> artist_fieldnames).
Proof. unfold artist_row. simpl. apply dict_to_list_artist. Qed.

Lemma album_cells (album : gmap string value) :
  (row ← album_row (VDict album); dict_to_list album_fieldnames row)
  = Ok [cell album "name"; artist_column album; cell album "mbid";
        cell album "playcount"; cell album "url"].
Proof.
  unfold album_row. rewrite extract_album_artist_column. simpl.
  apply dict_to_list_album.
Qed.

(** C3. The artist column of an album record is the artist field itself
    when it is a string, the name field of the artist when it is a
    mapping, and the empty string when the field is missing or has any
    other shape; it is the second cell of the row that is written. *)
Theorem extract_album_artist_cases (album : gmap string value) :
  _extract_album_artist (VDict album)
  = Ok match album !! "artist" with
       | Some (VStr s) => VStr s
       | Some (VDict artist) => default (VStr "") (artist !! "name")
       | _ => VStr ""
       end
  /\ (row ← album_row (VDict album); dict_to_list album_fieldnames row)
     = Ok [cell album "name"; artist_column album; cell album "mbid";
           cell album "playcount"; cell album "url"]
  /\ _extract_album_artist (VDict {[ "artist" := VStr "Radiohead" ]})
     = Ok (VStr "Radiohead")
  /\ _extract_album_artist
       (VDict {[ "artist" := VDict {[ "name" := VStr "Radiohead";
                                      "mbid" := VStr "x" ]} ]})
     = Ok (VStr "Radiohead")
  /\ _extract_album_artist (VDict ∅) = Ok (VStr "")
  /\ _extract_album_artist (VDict {[ "artist" := VInt 7 ]}) = Ok (VStr "").
Proof.
  split; [apply extract_album_artist_column|].
  split; [apply album_cells|].
  repeat split; reflexivity.
Qed.

(** *** Writing a table *)

Lemma writerow_ok csv_path fieldnames rowdict cells st :
  dict_to_list fieldnames rowdict = Ok cells ->
  fs_faults w (fs_calls st) = None ->
  writerow w csv_path fieldnames rowdict st
  = ({| requests_sent := requests_sent st;
        fs_calls := S (fs_calls st);
        log := log st ++ [WriteText csv_path (csv_line cells)] |},
     Returned tt).
Proof.
  intros Hcells Hfault. unfold writerow.
  rewrite io_bind_eq, Hcells. simpl. apply fs_call_ok, Hfault.
Qed.

(** The loop over the records, when each pass writes one line. *)
Lemma io_for_rows (cells : gmap string value -> list value)
    (body : value -> IO unit) (csv_path : string)
    (records : list (gmap string value)) :
  (forall r st,
     body (VDict r) st
     = ({| requests_sent := requests_sent st;
           fs_calls := S (fs_calls st);
           log := log st ++ [WriteText csv_path (csv_line (cells r))] |},
        Returned tt)) ->
  forall st,
    io_for (VDict <$> records) body st
    = ({| requests_sent := requests_sent st;
          fs_calls := fs_calls st + length records;
          log := log st
                 ++ ((fun r => WriteText csv_path (csv_line (cells r)))
                       <$> records) |},
       Returned tt).
Proof.
  intros Hbody. induction records as [|r records IH]; intros st.
  - simpl. unfold mret, IO_ret. destruct st. simpl.
    rewrite Nat.add_0_r, app_nil_r. reflexivity.
  - cbn [fmap list_fmap io_for]. rewrite io_bind_eq, Hbody, IH. simpl.
    rewrite <- app_assoc. do 2 f_equal. lia.
Qed.

(** C9. Each table starts with its header row: name, mbid, playcount,
    url, streamable, tagcount for the artists and name, artist, mbid,
    playcount, url for the albums.  Whatever the collection holds, and so
    for the empty one, the header is the first line written to the file
    that was opened; for a collection of records the lines that follow
    are the rows of the records, in order, each cell being the field of
    the record or the empty string when the record has no such field. *)
Theorem csv_tables_have_header_and_rows (csv_path : string) (st : io_state) :
  (forall k, fs_faults w k = None) ->
  let artists_header :=
    WriteText csv_path
      (csv_line (VStr <$> ["name"; "mbid"; "playcount"; "url";
                           "streamable"; "tagcount"])) in
  let albums_header :=
    WriteText csv_path
      (csv_line (VStr <$> ["name"; "artist"; "mbid"; "playcount"; "url"])) in
  (forall artists : list value, exists later,
     log (fst (_write_artists_csv w artists csv_path st))
     = log st ++ OpenW csv_path :: artists_header :: later)
  /\ (forall albums : list value, exists later,
       log (fst (_write_albums_csv w albums csv_path st))
       = log st ++ OpenW csv_path :: albums_header :: later)
  /\ (forall records : list (gmap string value), exists st',
       _write_artists_csv w (VDict <$> records) csv_path st
       = (st', Returned tt)
       /\ log st'
          = log st ++ OpenW csv_path :: artists_header
              :: ((fun r =>
                     WriteText csv_path
                       (csv_line [cell r "name"; cell r "mbid";
                                  cell r "playcount"; cell r "url";
                                  cell r "streamable"; cell r "tagcount"]))
                    <$> records))
  /\ (forall records : list (gmap string value), exists st',
       _write_albums_csv w (VDict <$> records) csv_path st
       = (st', Returned tt)
       /\ log st'
          = log st ++ OpenW csv_path :: albums_header
              :: ((fun r =>
                     WriteText csv_path
                       (csv_line [cell r "name"; artist_column r;
                                  cell r "mbid"; cell r "playcount";
                                  cell r "url"]))
                    <$> records))
  /\ (forall (r : gmap string value) key,
       r !! key = None -> cell r key = VStr "")
  /\ (forall r : gmap string value,
       r !! "artist" = None -> artist_column r = VStr "")
  /\ _write_artists_csv w [] csv_path st
     = ({| requests_sent := requests_sent st;
           fs_calls := S (S (fs_calls st));
           log := log st ++ [OpenW csv_path; artists_header] |},
        Returned tt).
Proof.
  intros Hfs artists_header albums_header.
  assert (Hopen : forall body : IO unit,
            (_ ← fs_call w (OpenW csv_path); body) st
            = body {| requests_sent := requests_sent st;
                      fs_calls := S (fs_calls st);
                      log := log st ++ [OpenW csv_path] |}).
  { intros body. rewrite io_bind_eq, fs_call_ok by apply Hfs. reflexivity. }
  assert (Hhead : forall fieldnames (body : IO unit) st0,
            (_ ← writeheader w csv_path fieldnames; body) st0
            = body {| requests_sent := requests_sent st0;
                      fs_calls := S (fs_calls st0);
                      log := log st0
                             ++ [WriteText csv_path
                                   (csv_line (VStr <$> fieldnames))] |}).
  { intros fieldnames body st0. unfold writeheader.
    rewrite io_bind_eq, fs_call_ok by apply Hfs. reflexivity. }
  repeat split.
  - intros artists. unfold _write_artists_csv. rewrite Hopen, Hhead.
    match goal with |- context [io_for ?l ?b ?s] =>
      destruct (monotone_io_for l b) with (st := s) as [later ->] end.
    + intros artist. apply monotone_bind; [apply monotone_lift|].
      intros row. apply monotone_writerow.
    + exists later. simpl. rewrite <- !app_assoc. reflexivity.
  - intros albums. unfold _write_albums_csv. rewrite Hopen, Hhead.
    match goal with |- context [io_for ?l ?b ?s] =>
      destruct (monotone_io_for l b) with (st := s) as [later ->] end.
    + intros album. apply monotone_bind; [apply monotone_lift|].
      intros row. apply monotone_writerow.
    + exists later. simpl. rewrite <- !app_assoc. reflexivity.
  - intros records. unfold _write_artists_csv. rewrite Hopen, Hhead.
    rewrite (io_for_rows (fun r => cell r <$> artist_fieldnames) _ csv_path).
    + eexists. split; [reflexivity|]. simpl.
      rewrite <- !app_assoc. reflexivity.
    + intros r st0. rewrite io_bind_eq. unfold artist_row. simpl.
      apply writerow_ok; [apply dict_to_list_artist | apply Hfs].
  - intros records. unfold _write_albums_csv. rewrite Hopen, Hhead.
    rewrite (io_for_rows
               (fun r => [cell r "name"; artist_column r; cell r "mbid";
                          cell r "playcount"; cell r "url"]) _ csv_path).
    + eexists. split; [reflexivity|]. simpl.
      rewrite <- !app_assoc. reflexivity.
    + intros r st0. rewrite io_bind_eq. unfold album_row.
      rewrite extract_album_artist_column. simpl.
      apply writerow_ok; [apply dict_to_list_album | apply Hfs].
  - intros r key Hkey. unfold cell. rewrite Hkey. reflexivity.
  - intros r Hkey. unfold artist_column. rewrite Hkey. reflexivity.
  - unfold _write_artists_csv. rewrite Hopen, Hhead. simpl.
    rewrite <- !app_assoc. reflexivity.
Qed.

(** *** The bound on the passes *)

(** A fetch that returned or raised does the same when more passes are
    allowed: the bound only matters while it cuts the loop short. *)
Lemma get_user_artists_fuel_mono self fuel fuel' user limit_per_page st st' out :
  get_user_artists w self fuel user limit_per_page st = (st', out) ->
  out <> OutOfFuel ->
  fuel <= fuel' ->
  get_user_artists w self fuel' user limit_per_page st = (st', out).
Proof.
  unfold get_user_artists, collect, _iter_paginated. intros Hrun Hout Hle.
  rewrite (paginate_fuel_mono _ _ _ _ _ _ _ _ fuel); auto.
  destruct (paginate _ _ _ _ _ _ _ _ fuel _ _ _) as [events []];
    simpl; congruence.
Qed.

Lemma get_user_albums_fuel_mono self fuel fuel' user limit_per_page
    artist_filter st st' out :
  get_user_albums w self fuel user limit_per_page artist_filter st
  = (st', out) ->
  out <> OutOfFuel ->
  fuel <= fuel' ->
  get_user_albums w self fuel' user limit_per_page artist_filter st
  = (st', out).
Proof.
  unfold get_user_albums, collect, _iter_paginated. intros Hrun Hout Hle.
  rewrite (paginate_fuel_mono _ _ _ _ _ _ _ _ fuel); auto.
  destruct (paginate _ _ _ _ _ _ _ _ fuel _ _ _) as [events []];
    simpl; congruence.
Qed.

Lemma export_library_fuel_mono fuel fuel' self output_dir base_name
    write_json write_csv artists_per_page albums_per_page st st' out :
  export_library w fuel self output_dir base_name write_json write_csv
                 artists_per_page albums_per_page st = (st', out) ->
  out <> OutOfFuel ->
  fuel <= fuel' ->
  export_library w fuel' self output_dir base_name write_json write_csv
                 artists_per_page albums_per_page st = (st', out).
Proof.
  unfold export_library. intros Hrun Hout Hle.
  rewrite io_bind_eq in *.
  destruct (fs_call w (Mkdir output_dir) st) as [st1 [[]|e|]]; auto.
  rewrite io_bind_eq in *.
  destruct (get_user_artists w (client self) fuel (username self)
              artists_per_page st1) as [st2 o2] eqn:Hartists.
  assert (o2 <> OutOfFuel) as Ho2
    by (intros ->; injection Hrun as _ <-; congruence).
  rewrite (get_user_artists_fuel_mono _ _ _ _ _ _ _ _ Hartists Ho2 Hle).
  destruct o2 as [artists|e|]; auto.
  rewrite io_bind_eq in *.
  destruct (get_user_albums w (client self) fuel (username self)
              albums_per_page None st2) as [st3 o3] eqn:Halbums.
  assert (o3 <> OutOfFuel) as Ho3
    by (intros ->; injection Hrun as _ <-; congruence).
  rewrite (get_user_albums_fuel_mono _ _ _ _ _ _ _ _ _ Halbums Ho3 Hle).
  destruct o3 as [albums|e|]; auto.
Qed.

(** *** The export *)

Lemma fs_call_returned ev st st' :
  fs_call w ev st = (st', Returned tt) ->
  log st' = log st ++ [ev] /\ fs_calls st' = S (fs_calls st).
Proof.
  unfold fs_call. destruct (fs_faults w (fs_calls st)); intros [= <-].
  split; reflexivity.
Qed.

(** C2. When one of the two fetches fails, the export ends with the very
    exception the fetch raised, and of the file system only the creation
    of the output directory has happened: no file was opened or
    written. *)
Theorem export_aborts_when_fetch_fails
    (fuel : nat) (self : LastFMLibraryExporter)
    (output_dir base_name : string) (write_json write_csv : bool)
    (artists_per_page albums_per_page : Z)
    (st st1 st2 : io_state) (e : exn) :
  fs_call w (Mkdir output_dir) st = (st1, Returned tt) ->
  (get_user_artists w (client self) fuel (username self) artists_per_page st1
   = (st2, Raised e)
   \/ exists st' artists,
        get_user_artists w (client self) fuel (username self)
                         artists_per_page st1
        = (st', Returned artists)
        /\ get_user_albums w (client self) fuel (username self)
                           albums_per_page None st'
           = (st2, Raised e)) ->
  export_library w fuel self output_dir base_name write_json write_csv
                 artists_per_page albums_per_page st
  = (st2, Raised e)
  /\ fs_events (log st2) = fs_events (log st) ++ [Mkdir output_dir]
  /\ fs_calls st2 = S (fs_calls st).
Proof.
  intros Hmkdir Hfetch. unfold export_library.
  rewrite (io_bind_returned _ _ _ _ _ Hmkdir).
  apply fs_call_returned in Hmkdir as [Hlog Hcalls].
  destruct Hfetch as [Hartists | (st' & artists & Hartists & Halbums)].
  - rewrite (io_bind_raised _ _ _ _ _ Hartists). split; [reflexivity|].
    unfold get_user_artists in Hartists.
    apply collect_effects in Hartists as [-> ->].
    rewrite Hlog, fs_events_app. auto.
  - rewrite (io_bind_returned _ _ _ _ _ Hartists).
    rewrite (io_bind_raised _ _ _ _ _ Halbums). split; [reflexivity|].
    unfold get_user_artists in Hartists. unfold get_user_albums in Halbums.
    apply collect_effects in Hartists as [H1 H1'].
    apply collect_effects in Halbums as [-> ->].
    rewrite H1, H1', Hlog, fs_events_app. auto.
Qed.


End ExportFacts.

(** *** The export on the sample data *)

Lemma export_aborts_when_fetch_fails_witness :
  let st1 := fst (fs_call failing_world (Mkdir "out") initial_state) in
  let st' :=
    fst (get_user_artists (rt := Reference.runtime) failing_world
           sample_client 5 "alice" 1000 st1) in
  let st2 :=
    fst (get_user_albums (rt := Reference.runtime) failing_world
           sample_client 5 "alice" 1000 None st') in
  export_library (rt := Reference.runtime) failing_world 5 sample_exporter
    "out" "lib" true true 1000 1000 initial_state
  = (st2, Raised (LastFMError "Last.fm API error 6: User not found"))
  /\ fs_events (log st2) = fs_events (log initial_state) ++ [Mkdir "out"]
  /\ fs_calls st2 = S (fs_calls initial_state).
Proof.
  intros st1 st' st2.
  apply (export_aborts_when_fetch_fails (rt := Reference.runtime)
           failing_world 5 sample_exporter "out" "lib" true true 1000 1000
           initial_state st1 st2).
  - reflexivity.
  - right. exists st', [radiohead; portishead; low].
    split; vm_compute; reflexivity.
Defined.


Lemma csv_tables_have_header_and_rows_witness :
  exists st',
    _write_artists_csv (rt := Reference.runtime) sample_world
      (VDict <$> [radiohead_fields; low_fields]) "out/lib_artists.csv"
      initial_state
    = (st', Returned tt)
    /\ log st'
       = log initial_state
         ++ OpenW "out/lib_artists.csv"
         :: WriteText "out/lib_artists.csv"
              (Reference.writerow_text
                 (VStr <$> ["name"; "mbid"; "playcount"; "url";
                            "streamable"; "tagcount"]))
         :: ((fun r =>
                WriteText "out/lib_artists.csv"
                  (Reference.writerow_text
                     [cell r "name"; cell r "mbid"; cell r "playcount";
                      cell r "url"; cell r "streamable";
                      cell r "tagcount"]))
               <$> [radiohead_fields; low_fields]).
Proof.
  apply (proj1 (proj2 (proj2
           (csv_tables_have_header_and_rows (rt := Reference.runtime)
              sample_world "out/lib_artists.csv" initial_state
              (fun k => eq_refl))))
           [radiohead_fields; low_fields]).
Defined.

(** The scenario of the specification, run in full: three artists in page
    order, the three files, and the counts of the result. *)
Example export_scenario :
  let run :=
    export_library (rt := Reference.runtime) sample_world 5 sample_exporter
      "out" "lib" true true 1000 1000 initial_state in
  snd run
  = Returned {| artists_count := 3;
                albums_count := 2;
                json_path := Some "out/lib.json";
                artists_csv_path := Some "out/lib_artists.csv";
                albums_csv_path := Some "out/lib_albums.csv" |}
  /\ map (fun ev => match ev with
                    | OpenW path => path
                    | _ => EmptyString
                    end)
         (List.filter (fun ev => match ev with OpenW _ => true | _ => false end)
                      (log (fst run)))
     = ["out/lib.json"; "out/lib_artists.csv"; "out/lib_albums.csv"]
  /\ fst (get_user_artists (rt := Reference.runtime) sample_world
            sample_client 5 "alice" 1000 initial_state)
     = {| requests_sent := 2; fs_calls := 0;
          log := log (fst (get_user_artists (rt := Reference.runtime)
                             sample_world sample_client 5 "alice" 1000
                             initial_state)) |}
  /\ snd (get_user_artists (rt := Reference.runtime) sample_world
            sample_client 5 "alice" 1000 initial_state)
     = Returned [radiohead; portishead; low].
Proof. vm_compute. repeat split; reflexivity. Qed.

(** * Further properties *)

(** ** The single request *)


(** ** More on the pagination primitive *)

Section PaginationExtras.
Context {rt : Runtime}.
Variable self : LastFMClient.
Variables (method_name user root_key list_key : string).
Variable limit_per_page : Z.
Variable extra_params : gmap string value.
Variable responses : nat -> http_outcome.

Local Abbreviation body :=
  (loop_body self method_name user root_key list_key limit_per_page
             extra_params responses).
Local Abbreviation run :=
  (paginate self method_name user root_key list_key limit_per_page
            extra_params responses).
Local Abbreviation generator :=
  (_iter_paginated self method_name user root_key list_key limit_per_page
                   extra_params responses).
Local Abbreviation fetch := (fetch_page method_name root_key list_key).
Local Abbreviation pass_events :=
  (page_events self method_name user limit_per_page extra_params).
Local Abbreviation passes :=
  (pages_events self method_name user limit_per_page extra_params).
Local Abbreviation query_of_page p :=
  (request_query self method_name
     (page_params user limit_per_page extra_params p)).

(** X2. The query of a request: extra parameters that can be passed as
    keywords go out as they are and win over every built-in parameter of
    the same name; the page parameters ([user], [limit], [page]) win over
    [method], [api_key] and [format]. *)
Theorem query_parameters_override (current_page : Z) (key : string) :
  keyword_safe extra_params ->
  query_of_page current_page !! key
  = match extra_params !! key with
    | Some v => Some v
    | None =>
        match ({[ "user" := VStr user;
                  "limit" := VInt limit_per_page;
                  "page" := VInt current_page ]} : gmap string value) !! key
        with
        | Some v => Some v
        | None =>
            ({[ "method" := VStr method_name;
                "api_key" := VStr (api_key self);
                "format" := VStr "json" ]} : gmap string value) !! key
        end
    end.
Proof.
  intros _. unfold request_query, page_params. rewrite !lookup_union.
  repeat match goal with
         | |- context [?m !! key] => destruct (m !! key)
         end; reflexivity.
Qed.

Lemma queries_of_body n current_page total_pages :
  queries_of (fst (body n current_page total_pages))
  = [query_of_page current_page].
Proof.
  destruct (fetch (responses n)) as [[c its]|e] eqn:H.
  - rewrite (loop_body_page _ _ _ _ _ _ _ _ _ _ _ _ _ H). simpl.
    rewrite queries_of_yielded. reflexivity.
  - rewrite (loop_body_no_page _ _ _ _ _ _ _ _ _ _ _ _ H). reflexivity.
Qed.

(** The requests of a run from any state of the loop are those of
    consecutive pages; there are at most as many as the total allows. *)
Lemma paginate_queries fuel : forall n current_page total_pages,
  exists m,
    m <= fuel
    /\ (1 <= fuel -> 1 <= m)
    /\ queries_of (fst (run fuel n current_page total_pages))
       = (fun j => query_of_page (Z.of_nat j + current_page)%Z) <$> seq 0 m
    /\ (forall T, total_pages = Some T ->
                  (Z.of_nat m <= Z.max 1 (T - current_page + 1))%Z).
Proof.
  induction fuel as [|fuel IH]; intros n cur tot.
  - exists 0. repeat split; [lia|lia|intros; lia].
  - rewrite paginate_S.
    pose proof (queries_of_body n cur tot) as Hq.
    destruct (body n cur tot) as [events [how|t]] eqn:Hbody; simpl in Hq.
    + exists 1. repeat split; [lia|lia|exact Hq|intros; lia].
    + destruct (IH (S n) (cur + 1)%Z (Some t)) as (m & Hm & _ & Hqs & Hbound).
      apply loop_body_next in Hbody as [Hlt Hfixed].
      exists (S m). repeat split; [lia|lia| |].
      * simpl fst. rewrite queries_of_app, Hq, Hqs.
        cbn [seq fmap list_fmap app]. f_equal.
        rewrite <- fmap_S_seq, <- list_fmap_compose.
        apply list_fmap_ext. intros _ j _. simpl. do 2 f_equal. lia.
      * intros T ->. rewrite (Hfixed T eq_refl) in *.
        specialize (Hbound T eq_refl). lia.
Qed.

(** X3. Whatever the server answers, the generator asks for the pages
    1, 2, 3, ... in this order, with no page left out or asked twice; it
    sends at least one request, and never more than the total read on the
    first page allows. *)
Theorem requests_are_consecutive_pages (fuel : nat) :
  keyword_safe extra_params ->
  exists m,
    queries_of (fst (generator fuel))
    = (fun j => query_of_page (Z.of_nat j + 1)%Z) <$> seq 0 m
    /\ m <= fuel
    /\ (1 <= fuel -> 1 <= m)
    /\ (forall container items T,
          fetch (responses 0) = Ok (container, items) ->
          read_total_pages container = Ok T ->
          (Z.of_nat m <= Z.max 1 T)%Z).
Proof.
  intros _. unfold _iter_paginated.
  destruct fuel as [|fuel]; [exists 0; repeat split; intros; lia|].
  rewrite paginate_S.
  pose proof (queries_of_body 0 1%Z None) as Hq.
  destruct (body 0 1%Z None) as [events [how|t]] eqn:Hbody; simpl in Hq.
  - exists 1. repeat split; [exact Hq|lia|lia|intros; lia].
  - destruct (paginate_queries fuel 1 (1 + 1)%Z (Some t))
      as (m & Hm & _ & Hqs & Hbound).
    exists (S m). repeat split; [|lia|lia|].
    + simpl fst. rewrite queries_of_app, Hq, Hqs.
      cbn [seq fmap list_fmap app]. f_equal.
      rewrite <- fmap_S_seq, <- list_fmap_compose.
      apply list_fmap_ext. intros _ j _. simpl. do 2 f_equal. lia.
    + intros c items T Hpage Htotal.
      rewrite (loop_body_page _ _ _ _ _ _ _ _ _ _ _ _ _ Hpage), Htotal
        in Hbody.
      destruct (Z.geb_spec 1 T); [discriminate|].
      injection Hbody as _ <-. specialize (Hbound T eq_refl). lia.
Qed.

Lemma read_total_pages_needs_mapping (container : gmap string value)
    (attr : value) :
  container !! "@attr" = Some attr ->
  is_dict attr = false ->
  read_total_pages (VDict container) = Raise AttributeError.
Proof.
  intros Hattr Hshape.
  unfold read_total_pages, total_pages_field, mbind, result_bind, py_get.
  rewrite Hattr. destruct attr; try discriminate; reflexivity.
Qed.

(** X4. When the attributes of the first page are present but are not a
    mapping (a JSON null, a string, a list, a number), the generator
    yields the items of the page and then fails with [AttributeError],
    which is no [LastFMError]. *)
Theorem first_page_attributes_must_be_a_mapping
    (container : gmap string value) (attr : value) (items : list value)
    (fuel : nat) :
  keyword_safe extra_params ->
  fetch (responses 0) = Ok (VDict container, items) ->
  container !! "@attr" = Some attr ->
  is_dict attr = false ->
  1 <= fuel ->
  generator fuel = (pass_events 1 items, Failed AttributeError).
Proof.
  intros _ Hpage Hattr Hshape Hfuel. destruct fuel as [|fuel]; [lia|].
  unfold _iter_paginated.
  rewrite paginate_S, (loop_body_page _ _ _ _ _ _ _ _ _ _ _ _ _ Hpage).
  rewrite (read_total_pages_needs_mapping _ _ Hattr Hshape). reflexivity.
Qed.

(** X5. Three shapes of a response end the run at once, after the
    request and with no item yielded, by an exception that is not
    [LastFMError]: a body that is not a mapping and a container that is
    not a mapping ([AttributeError]), and an item value that is [None], a
    boolean or a number ([TypeError]). *)
Theorem malformed_page_raises_builtin_error
    (n : nat) (current_page : Z) (total_pages : option Z) (fuel : nat) :
  keyword_safe extra_params ->
  (forall data,
     _request (responses n) = Ok data ->
     is_dict data = false ->
     run (S fuel) n current_page total_pages
     = ([Requested (query_of_page current_page)], Failed AttributeError))
  /\ (forall (data : gmap string value) container,
       _request (responses n) = Ok (VDict data) ->
       data !! root_key = Some container ->
       container <> VNone ->
       is_dict container = false ->
       run (S fuel) n current_page total_pages
       = ([Requested (query_of_page current_page)], Failed AttributeError))
  /\ (forall (data container : gmap string value) items,
       _request (responses n) = Ok (VDict data) ->
       data !! root_key = Some (VDict container) ->
       container !! list_key = Some items ->
       is_scalar items = true ->
       run (S fuel) n current_page total_pages
       = ([Requested (query_of_page current_page)], Failed TypeError)).
Proof.
  intros _. repeat split.
  - intros data Hdata Hshape. rewrite paginate_S.
    rewrite (loop_body_no_page _ _ _ _ _ _ _ _ _ _ _ AttributeError);
      [reflexivity|].
    unfold fetch_page, page_container. rewrite Hdata.
    destruct data; try discriminate; reflexivity.
  - intros data container Hdata Hkey Hnone Hshape. rewrite paginate_S.
    rewrite (loop_body_no_page _ _ _ _ _ _ _ _ _ _ _ AttributeError);
      [reflexivity|].
    unfold fetch_page, page_container. rewrite Hdata.
    unfold mbind, result_bind, py_get. rewrite Hkey. simpl.
    destruct container; try discriminate; try reflexivity. congruence.
  - intros data container items Hdata Hkey Hitems Hshape.
    rewrite paginate_S.
    rewrite (loop_body_no_page _ _ _ _ _ _ _ _ _ _ _ TypeError);
      [reflexivity|].
    unfold fetch_page, page_container, page_items. rewrite Hdata.
    unfold mbind, result_bind, py_get. rewrite Hkey. simpl.
    rewrite Hitems. simpl. destruct items; try discriminate; reflexivity.
Qed.

(** The loop with the total known, over pages that do not reach it and
    a request that fails after them. *)
Lemma paginate_pages_then_failure k : forall n current_page T containers
    items e fuel,
  (forall j, n <= j < n + k ->
             fetch (responses j) = Ok (containers j, items j)) ->
  fetch (responses (n + k)) = Raise e ->
  (current_page + Z.of_nat k <= T)%Z ->
  S k <= fuel ->
  run fuel n current_page (Some T)
  = (passes k n current_page items
     ++ [Requested (query_of_page (current_page + Z.of_nat k))],
     Failed e).
Proof.
  induction k as [|k IH];
    intros n cur T containers items e fuel Hpages Hfail HT Hfuel;
    (destruct fuel as [|fuel]; [lia|]); rewrite paginate_S.
  - rewrite Nat.add_0_r in Hfail.
    rewrite (loop_body_no_page _ _ _ _ _ _ _ _ _ _ _ _ Hfail).
    simpl. rewrite Z.add_0_r. reflexivity.
  - rewrite (loop_body_page _ _ _ _ _ _ _ _ _ _ _
               (containers n) (items n)) by (apply Hpages; lia).
    replace (cur >=? T)%Z with false
      by (symmetry; rewrite Z.geb_leb; apply Z.leb_gt; lia).
    rewrite (IH (S n) (cur + 1)%Z T containers items e fuel);
      [|intros; apply Hpages; lia
       |replace (S n + k) with (n + S k) by lia; exact Hfail
       |lia|lia].
    cbn [pages_events fst snd]. rewrite <- app_assoc.
    replace (cur + 1 + Z.of_nat k)%Z with (cur + Z.of_nat (S k))%Z by lia.
    reflexivity.
Qed.

(** The run over the first pages and a request that fails after them. *)
Lemma iter_paginated_pages_then_failure
    (k : nat) (T : Z) (containers : nat -> value)
    (items : nat -> list value) (e : exn) (fuel : nat) :
  (forall j, j < k -> fetch (responses j) = Ok (containers j, items j)) ->
  read_total_pages (containers 0) = Ok T ->
  1 <= k ->
  (Z.of_nat k < T)%Z ->
  fetch (responses k) = Raise e ->
  S k <= fuel ->
  generator fuel
  = (passes k 0 1%Z items
     ++ [Requested (query_of_page (Z.of_nat k + 1))], Failed e).
Proof.
  intros Hpages Htotal Hk HT Hfail Hfuel.
  destruct fuel as [|fuel]; [lia|]. destruct k as [|k]; [lia|].
  rewrite (iter_paginated_first _ _ _ _ _ _ _ _ fuel
             (containers 0) (items 0) T) by (auto; apply Hpages; lia).
  replace (1 >=? T)%Z with false
    by (symmetry; rewrite Z.geb_leb; apply Z.leb_gt; lia).
  rewrite (paginate_pages_then_failure k 1 2%Z T containers items e fuel);
    [|intros; apply Hpages; lia|exact Hfail|lia|lia].
  cbn [pages_events fst snd]. rewrite <- app_assoc.
  replace (2 + Z.of_nat k)%Z with (Z.of_nat (S k) + 1)%Z by lia.
  reflexivity.
Qed.

(** X6. A request that fails after the first pages ends the run with
    its exception: the items of the pages before it have been yielded,
    and no request follows the one that failed. *)
Theorem later_failure_ends_the_run
    (k : nat) (T : Z) (containers : nat -> value)
    (items : nat -> list value) (e : exn) (fuel : nat) :
  keyword_safe extra_params ->
  (forall j, j < k -> fetch (responses j) = Ok (containers j, items j)) ->
  read_total_pages (containers 0) = Ok T ->
  1 <= k ->
  (Z.of_nat k < T)%Z ->
  fetch (responses k) = Raise e ->
  S k <= fuel ->
  generator fuel
  = (passes k 0 1%Z items
     ++ [Requested (query_of_page (Z.of_nat k + 1))], Failed e)
  /\ items_of (fst (generator fuel)) = concat (items <$> seq 0 k)
  /\ length (queries_of (fst (generator fuel))) = S k.
Proof.
  intros _ Hpages Htotal Hk HT Hfail Hfuel.
  rewrite (iter_paginated_pages_then_failure k T containers items e fuel);
    auto.
  cbn [fst]. split; [reflexivity|].
  rewrite items_of_app, queries_of_app, items_of_pages, queries_of_pages.
  simpl. rewrite app_nil_r, length_app, length_fmap, length_seq.
  split; [reflexivity | simpl; lia].
Qed.

End PaginationExtras.

(** ** The two operations of the client *)

Section OperationsExtras.
Context {rt : Runtime}.
Variable w : World.

(** X7. [get_user_artists] over [P] pages: it returns the items of the
    pages in page order, sends exactly [P] requests to the API root with
    the timeout of the client, one for each page from 1 to [P], for the
    method [library.getartists], and touches no file. *)
Theorem get_user_artists_returns_all_pages
    (self : LastFMClient) (fuel : nat) (user : string) (limit_per_page : Z)
    (st : io_state) (P : Z) (s : value) (containers : nat -> value)
    (items : nat -> list value) :
  (forall k, k < Z.to_nat P ->
     fetch_page "library.getartists" "artists" "artist"
                (responses w (requests_sent st + k))
     = Ok (containers k, items k)) ->
  total_pages_field (containers 0) = Ok s ->
  py_int s = Ok P ->
  (1 <= P)%Z ->
  Z.to_nat P <= fuel ->
  get_user_artists w self fuel user limit_per_page st
  = ({| requests_sent := requests_sent st + Z.to_nat P;
        fs_calls := fs_calls st;
        log := log st
               ++ ((fun p =>
                      HttpGet API_ROOT
                        (request_query self "library.getartists"
                           (page_params user limit_per_page ∅ p))
                        (timeout self))
                     <$> seqZ 1 P) |},
     Returned (concat (items <$> seq 0 (Z.to_nat P)))).
Proof.
  intros Hpages Hfield Hint HP Hfuel. unfold get_user_artists, collect.
  rewrite (iter_paginated_pages _ _ _ _ _ _ _ _ (Z.to_nat P)
             containers items P); auto.
  - rewrite queries_of_pages, items_of_pages, length_fmap, length_seq.
    unfold seqZ. rewrite <- !list_fmap_compose. do 3 f_equal.
  - eapply read_total_pages_parsed; eauto.
  - f_equal. lia.
Qed.

(** X8. When a request fails after the first pages, the operation raises
    its exception and returns nothing of what the pages held; the
    requests sent so far, the failed one included, are the only
    effect. *)
Theorem get_user_artists_is_all_or_nothing
    (self : LastFMClient) (fuel : nat) (user : string) (limit_per_page : Z)
    (st : io_state) (k : nat) (T : Z) (containers : nat -> value)
    (items : nat -> list value) (e : exn) :
  (forall j, j < k ->
     fetch_page "library.getartists" "artists" "artist"
                (responses w (requests_sent st + j))
     = Ok (containers j, items j)) ->
  read_total_pages (containers 0) = Ok T ->
  1 <= k ->
  (Z.of_nat k < T)%Z ->
  fetch_page "library.getartists" "artists" "artist"
             (responses w (requests_sent st + k)) = Raise e ->
  S k <= fuel ->
  get_user_artists w self fuel user limit_per_page st
  = ({| requests_sent := requests_sent st + S k;
        fs_calls := fs_calls st;
        log := log st
               ++ ((fun p =>
                      HttpGet API_ROOT
                        (request_query self "library.getartists"
                           (page_params user limit_per_page ∅ p))
                        (timeout self))
                     <$> seqZ 1 (Z.of_nat (S k))) |},
     Raised e).
Proof.
  intros Hpages Htotal Hk HT Hfail Hfuel. unfold get_user_artists, collect.
  rewrite (iter_paginated_pages_then_failure _ _ _ _ _ _ _ _
             k T containers items e fuel); auto.
  rewrite queries_of_app, queries_of_pages, length_app, length_fmap,
    length_seq.
  cbn [queries_of length]. f_equal. f_equal; [lia|]. f_equal.
  unfold seqZ. rewrite Nat2Z.id, seq_S, fmap_app, map_app, fmap_app.
  f_equal. generalize (seq 0 k). intros l.
  induction l as [|j l IH]; simpl; [reflexivity | f_equal; exact IH].
Qed.

(** X9. [get_user_albums] forwards a non-empty artist filter as the
    [artist] parameter of every request it sends, and sends no such
    parameter when the filter is [None] or the empty string; every
    request is for the method [library.getalbums] and the given user. *)
Theorem albums_filter_is_forwarded
    (self : LastFMClient) (fuel : nat) (user : string) (limit_per_page : Z)
    (artist_filter : option string) (st : io_state) :
  exists queries,
    log (fst (get_user_albums w self fuel user limit_per_page
                              artist_filter st))
    = log st ++ map (fun q => HttpGet API_ROOT q (timeout self)) queries
    /\ Forall (fun q : gmap string value =>
                 q !! "artist"
                 = match artist_filter with
                   | Some a => if String.eqb a "" then None
                               else Some (VStr a)
                   | None => None
                   end
                 /\ q !! "method" = Some (VStr "library.getalbums")
                 /\ q !! "user" = Some (VStr user))
              queries.
Proof.
  unfold get_user_albums, collect, _iter_paginated.
  match goal with |- context [paginate _ _ _ _ _ _ ?extra ?rs fuel 0 1%Z None] =>
    destruct (paginate_queries self "library.getalbums" user "albums"
                "album" limit_per_page extra rs fuel 0 1%Z None)
      as (m & _ & _ & Hq & _);
    destruct (paginate self "library.getalbums" user "albums" "album"
                limit_per_page extra rs fuel 0 1%Z None)
      as [events how]
  end.
  exists (queries_of events). split; [reflexivity|].
  simpl in Hq. rewrite Hq. apply Forall_fmap, Forall_forall. intros j _.
  simpl. unfold request_query, page_params. rewrite !lookup_union.
  destruct artist_filter as [a|]; [|repeat split; reflexivity].
  simpl. destruct (String.eqb a ""); repeat split; reflexivity.
Qed.

End OperationsExtras.

(** ** More on the export *)

Section ExportExtras.
Context {rt : Runtime}.
Variable w : World.

Lemma io_for_app {A : Type} (l1 l2 : list A) (body : A -> IO unit) st :
  io_for (l1 ++ l2) body st
  = (_ ← io_for l1 body; io_for l2 body) st.
Proof.
  revert st. induction l1 as [|x l1 IH]; intros st; [reflexivity|].
  cbn [app io_for]. rewrite !io_bind_eq.
  destruct (body x st) as [st' [[]|e|]]; [|reflexivity|reflexivity].
  rewrite IH, io_bind_eq. reflexivity.
Qed.

Lemma artist_row_needs_mapping (artist : value) :
  is_dict artist = false -> artist_row artist = Raise AttributeError.
Proof. destruct artist; try discriminate; reflexivity. Qed.

Lemma album_row_needs_mapping (album : value) :
  is_dict album = false -> album_row album = Raise AttributeError.
Proof. destruct album; try discriminate; reflexivity. Qed.

Lemma artist_pass_ok csv_path (r : gmap string value) st :
  fs_faults w (fs_calls st) = None ->
  (row ← lift (artist_row (VDict r));
   writerow w csv_path artist_fieldnames row) st
  = ({| requests_sent := requests_sent st;
        fs_calls := S (fs_calls st);
        log := log st
               ++ [WriteText csv_path
                     (csv_line (cell r <$> artist_fieldnames))] |},
     Returned tt).
Proof.
  intros Hfs. rewrite io_bind_eq. unfold artist_row. simpl.
  apply writerow_ok; [apply dict_to_list_artist | exact Hfs].
Qed.

Lemma album_pass_ok csv_path (r : gmap string value) st :
  fs_faults w (fs_calls st) = None ->
  (row ← lift (album_row (VDict r));
   writerow w csv_path album_fieldnames row) st
  = ({| requests_sent := requests_sent st;
        fs_calls := S (fs_calls st);
        log := log st
               ++ [WriteText csv_path
                     (csv_line [cell r "name"; artist_column r;
                                cell r "mbid"; cell r "playcount";
                                cell r "url"])] |},
     Returned tt).
Proof.
  intros Hfs. rewrite io_bind_eq. unfold album_row.
  rewrite extract_album_artist_column. simpl.
  apply writerow_ok; [apply dict_to_list_album | exact Hfs].
Qed.

(** Writing a table of records, with no fault. *)
Lemma write_artists_csv_records records csv_path st :
  (forall k, fs_faults w k = None) ->
  _write_artists_csv w (VDict <$> records) csv_path st
  = ({| requests_sent := requests_sent st;
        fs_calls := S (S (fs_calls st)) + length records;
        log := log st ++ artists_table csv_path records |},
     Returned tt).
Proof.
  intros Hfs. unfold _write_artists_csv, writeheader, artists_table.
  rewrite io_bind_eq, fs_call_ok by apply Hfs.
  rewrite io_bind_eq, fs_call_ok by apply Hfs.
  rewrite (io_for_rows (fun r => cell r <$> artist_fieldnames) _ csv_path)
    by (intros; apply artist_pass_ok, Hfs).
  simpl. rewrite <- !app_assoc. reflexivity.
Qed.

Lemma write_albums_csv_records records csv_path st :
  (forall k, fs_faults w k = None) ->
  _write_albums_csv w (VDict <$> records) csv_path st
  = ({| requests_sent := requests_sent st;
        fs_calls := S (S (fs_calls st)) + length records;
        log := log st ++ albums_table csv_path records |},
     Returned tt).
Proof.
  intros Hfs. unfold _write_albums_csv, writeheader, albums_table.
  rewrite io_bind_eq, fs_call_ok by apply Hfs.
  rewrite io_bind_eq, fs_call_ok by apply Hfs.
  rewrite (io_for_rows
             (fun r => [cell r "name"; artist_column r; cell r "mbid";
                        cell r "playcount"; cell r "url"]) _ csv_path)
    by (intros; apply album_pass_ok, Hfs).
  simpl. rewrite <- !app_assoc. reflexivity.
Qed.

(** The export when the directory is made, both collections are
    fetched and no call into the file system meets a fault. *)
Lemma export_library_success
    (fuel : nat) (self : LastFMLibraryExporter)
    (output_dir base_name : string) (write_json write_csv : bool)
    (artists_per_page albums_per_page : Z)
    (st st1 st2 st3 : io_state) (artists albums : list (gmap string value)) :
  fs_call w (Mkdir output_dir) st = (st1, Returned tt) ->
  get_user_artists w (client self) fuel (username self) artists_per_page st1
  = (st2, Returned (VDict <$> artists)) ->
  get_user_albums w (client self) fuel (username self) albums_per_page None st2
  = (st3, Returned (VDict <$> albums)) ->
  (forall k, fs_faults w k = None) ->
  let json_file := path_join output_dir (base_name +:+ ".json") in
  let artists_file := path_join output_dir (base_name +:+ "_artists.csv") in
  let albums_file := path_join output_dir (base_name +:+ "_albums.csv") in
  let document :=
    VDict (export_payload (username self) (utc_now w)
                          (VDict <$> artists) (VDict <$> albums)) in
  exists st',
    export_library w fuel self output_dir base_name write_json write_csv
                   artists_per_page albums_per_page st
    = (st', Returned
              {| artists_count := length artists;
                 albums_count := length albums;
                 json_path := if write_json then Some json_file else None;
                 artists_csv_path :=
                   if write_csv then Some artists_file else None;
                 albums_csv_path :=
                   if write_csv then Some albums_file else None |})
    /\ log st'
       = log st3
         ++ (if write_json
             then [OpenW json_file; WriteText json_file (json_dumps document)]
             else [])
         ++ (if write_csv
             then artists_table artists_file artists
                  ++ albums_table albums_file albums
             else [])
    /\ requests_sent st' = requests_sent st3.
Proof.
  intros Hmkdir Hartists Halbums Hfs json_file artists_file albums_file
    document.
  unfold export_library.
  rewrite (io_bind_returned _ _ _ _ _ Hmkdir).
  rewrite (io_bind_returned _ _ _ _ _ Hartists).
  rewrite (io_bind_returned _ _ _ _ _ Halbums).
  rewrite io_bind_eq. unfold now_isoformat. rewrite !length_fmap.
  destruct write_json, write_csv;
    repeat first
      [ rewrite io_bind_eq
      | rewrite fs_call_ok by apply Hfs
      | rewrite write_artists_csv_records by apply Hfs
      | rewrite write_albums_csv_records by apply Hfs
      | progress cbn [mret IO_ret fst snd log requests_sent] ];
    eexists; (split; [reflexivity|]); cbn [log requests_sent];
    rewrite <- ?app_assoc, ?app_nil_r; split; reflexivity.
Qed.

(** X10. An export that meets no fault: the result counts the two
    collections and names exactly the files that were asked for; the
    document is written first, then the table of the artists, then the
    table of the albums, and a format that was not asked for leaves no
    file and no path. *)
Theorem export_library_writes_what_is_asked
    (fuel : nat) (self : LastFMLibraryExporter)
    (output_dir base_name : string) (write_json write_csv : bool)
    (artists_per_page albums_per_page : Z)
    (st st1 st2 st3 : io_state) (artists albums : list (gmap string value)) :
  fs_call w (Mkdir output_dir) st = (st1, Returned tt) ->
  get_user_artists w (client self) fuel (username self) artists_per_page st1
  = (st2, Returned (VDict <$> artists)) ->
  get_user_albums w (client self) fuel (username self) albums_per_page None st2
  = (st3, Returned (VDict <$> albums)) ->
  (forall k, fs_faults w k = None) ->
  let json_file := path_join output_dir (base_name +:+ ".json") in
  let artists_file := path_join output_dir (base_name +:+ "_artists.csv") in
  let albums_file := path_join output_dir (base_name +:+ "_albums.csv") in
  let document :=
    VDict (export_payload (username self) (utc_now w)
                          (VDict <$> artists) (VDict <$> albums)) in
  exists st',
    export_library w fuel self output_dir base_name write_json write_csv
                   artists_per_page albums_per_page st
    = (st', Returned
              {| artists_count := length artists;
                 albums_count := length albums;
                 json_path := if write_json then Some json_file else None;
                 artists_csv_path :=
                   if write_csv then Some artists_file else None;
                 albums_csv_path :=
                   if write_csv then Some albums_file else None |})
    /\ log st'
       = log st3
         ++ (if write_json
             then [OpenW json_file; WriteText json_file (json_dumps document)]
             else [])
         ++ (if write_csv
             then artists_table artists_file artists
                  ++ albums_table albums_file albums
             else [])
    /\ requests_sent st' = requests_sent st3.
Proof.
  intros Hmkdir Hartists Halbums Hfs json_file artists_file albums_file
    document.
  unfold export_library.
  rewrite (io_bind_returned _ _ _ _ _ Hmkdir).
  rewrite (io_bind_returned _ _ _ _ _ Hartists).
  rewrite (io_bind_returned _ _ _ _ _ Halbums).
  rewrite io_bind_eq. unfold now_isoformat. rewrite !length_fmap.
  destruct write_json, write_csv;
    repeat first
      [ rewrite io_bind_eq
      | rewrite fs_call_ok by apply Hfs
      | rewrite write_artists_csv_records by apply Hfs
      | rewrite write_albums_csv_records by apply Hfs
      | progress cbn [mret IO_ret fst snd log requests_sent] ];
    eexists; (split; [reflexivity|]); cbn [log requests_sent];
    rewrite <- ?app_assoc, ?app_nil_r; split; reflexivity.
Qed.

(** X11. When the output directory cannot be created, the export ends
    with that exception before anything else: no request is sent and the
    log is as it was. *)
Theorem export_stops_when_directory_fails
    (fuel : nat) (self : LastFMLibraryExporter)
    (output_dir base_name : string) (write_json write_csv : bool)
    (artists_per_page albums_per_page : Z) (st : io_state) (e : exn) :
  fs_faults w (fs_calls st) = Some e ->
  export_library w fuel self output_dir base_name write_json write_csv
                 artists_per_page albums_per_page st
  = ({| requests_sent := requests_sent st;
        fs_calls := S (fs_calls st);
        log := log st |}, Raised e).
Proof.
  intros Hfault. unfold export_library. rewrite io_bind_eq.
  unfold fs_call. rewrite Hfault. reflexivity.
Qed.

(** X12. A fault while the files are written ends the export with its
    exception and stops the writing there; nothing is undone.  When the
    document cannot be opened no file is written; when the document was
    written and the table of the artists cannot be opened, the document
    stays and the table of the albums is never opened. *)
Theorem write_fault_keeps_earlier_files
    (fuel : nat) (self : LastFMLibraryExporter)
    (output_dir base_name : string) (write_csv : bool)
    (artists_per_page albums_per_page : Z)
    (st st1 st2 st3 : io_state) (artists albums : list value) (e : exn) :
  fs_call w (Mkdir output_dir) st = (st1, Returned tt) ->
  get_user_artists w (client self) fuel (username self) artists_per_page st1
  = (st2, Returned artists) ->
  get_user_albums w (client self) fuel (username self) albums_per_page None st2
  = (st3, Returned albums) ->
  let json_file := path_join output_dir (base_name +:+ ".json") in
  let document :=
    VDict (export_payload (username self) (utc_now w) artists albums) in
  (fs_faults w (fs_calls st3) = Some e ->
   export_library w fuel self output_dir base_name true write_csv
                  artists_per_page albums_per_page st
   = ({| requests_sent := requests_sent st3;
         fs_calls := S (fs_calls st3);
         log := log st3 |}, Raised e))
  /\ (fs_faults w (fs_calls st3) = None ->
      fs_faults w (S (fs_calls st3)) = None ->
      fs_faults w (S (S (fs_calls st3))) = Some e ->
      export_library w fuel self output_dir base_name true true
                     artists_per_page albums_per_page st
      = ({| requests_sent := requests_sent st3;
            fs_calls := S (S (S (fs_calls st3)));
            log := log st3
                   ++ [OpenW json_file;
                       WriteText json_file (json_dumps document)] |},
         Raised e)).
Proof.
  intros Hmkdir Hartists Halbums json_file document.
  unfold export_library.
  split; intros;
    rewrite (io_bind_returned _ _ _ _ _ Hmkdir);
    rewrite (io_bind_returned _ _ _ _ _ Hartists);
    rewrite (io_bind_returned _ _ _ _ _ Halbums);
    rewrite io_bind_eq; unfold now_isoformat.
  - rename H into Hfault. rewrite !io_bind_eq. unfold fs_call at 1.
    rewrite Hfault. reflexivity.
  - rename H into Hopen, H0 into Hwrite, H1 into Hfault.
    rewrite io_bind_eq, io_bind_eq, fs_call_ok by exact Hopen.
    rewrite io_bind_eq, fs_call_ok by exact Hwrite.
    cbn [mret IO_ret]. unfold _write_artists_csv.
    rewrite !io_bind_eq. unfold fs_call at 1. cbn [fs_calls].
    rewrite Hfault. cbn [log requests_sent].
    rewrite <- app_assoc. reflexivity.
Qed.

(** X13. A collection may hold an item that is no mapping (the server
    sent a list of strings, say).  Both table writers then raise
    [AttributeError] at that item: the header and the rows of the records
    before it are in the file, and nothing is written for the items after
    it. *)
Theorem csv_writer_stops_at_non_mapping
    (records : list (gmap string value)) (bad : value) (rest : list value)
    (csv_path : string) (st : io_state) :
  is_dict bad = false ->
  (forall k, fs_faults w k = None) ->
  _write_artists_csv w ((VDict <$> records) ++ bad :: rest) csv_path st
  = ({| requests_sent := requests_sent st;
        fs_calls := S (S (fs_calls st)) + length records;
        log := log st ++ artists_table csv_path records |},
     Raised AttributeError)
  /\ _write_albums_csv w ((VDict <$> records) ++ bad :: rest) csv_path st
     = ({| requests_sent := requests_sent st;
           fs_calls := S (S (fs_calls st)) + length records;
           log := log st ++ albums_table csv_path records |},
        Raised AttributeError).
Proof.
  intros Hbad Hfs. split.
  - unfold _write_artists_csv, writeheader, artists_table.
    rewrite io_bind_eq, fs_call_ok by apply Hfs.
    rewrite io_bind_eq, fs_call_ok by apply Hfs.
    rewrite io_for_app, io_bind_eq.
    rewrite (io_for_rows (fun r => cell r <$> artist_fieldnames) _ csv_path)
      by (intros; apply artist_pass_ok, Hfs).
    cbn [io_for]. rewrite !io_bind_eq.
    rewrite (artist_row_needs_mapping _ Hbad). simpl.
    rewrite <- !app_assoc. reflexivity.
  - unfold _write_albums_csv, writeheader, albums_table.
    rewrite io_bind_eq, fs_call_ok by apply Hfs.
    rewrite io_bind_eq, fs_call_ok by apply Hfs.
    rewrite io_for_app, io_bind_eq.
    rewrite (io_for_rows
               (fun r => [cell r "name"; artist_column r; cell r "mbid";
                          cell r "playcount"; cell r "url"]) _ csv_path)
      by (intros; apply album_pass_ok, Hfs).
    cbn [io_for]. rewrite !io_bind_eq.
    rewrite (album_row_needs_mapping _ Hbad). simpl.
    rewrite <- !app_assoc. reflexivity.
Qed.

(** *** The order of the effects *)

Lemma emits_ret {A : Type} (P : event -> Prop) (a : A) : emits P (mret a).
Proof. intros st. exists []. rewrite app_nil_r. split; [reflexivity|constructor]. Qed.

Lemma emits_lift {A : Type} (P : event -> Prop) (r : result A) :
  emits P (lift r).
Proof.
  intros st. exists []. rewrite app_nil_r.
  destruct r; split; try reflexivity; constructor.
Qed.

Lemma emits_fs_call (P : event -> Prop) (ev : event) :
  P ev -> emits P (fs_call w ev).
Proof.
  intros Hev st. unfold fs_call. destruct (fs_faults w (fs_calls st)).
  - exists []. simpl. rewrite app_nil_r. split; [reflexivity|constructor].
  - exists [ev]. simpl. split; [reflexivity|]. repeat constructor. exact Hev.
Qed.

Lemma emits_bind {A B : Type} (P : event -> Prop) (m : IO A)
    (f : A -> IO B) :
  emits P m -> (forall a, emits P (f a)) -> emits P (m ≫= f).
Proof.
  intros Hm Hf st. rewrite io_bind_eq.
  destruct (Hm st) as (l1 & Hl1 & HP1).
  destruct (m st) as [st' [a|e|]]; simpl in Hl1;
    [|exists l1; auto|exists l1; auto].
  destruct (Hf a st') as (l2 & Hl2 & HP2).
  exists (l1 ++ l2). rewrite Hl2, Hl1, app_assoc.
  split; [reflexivity | apply Forall_app; auto].
Qed.

Lemma emits_io_for {A : Type} (P : event -> Prop) (l : list A)
    (body : A -> IO unit) :
  (forall x, emits P (body x)) -> emits P (io_for l body).
Proof.
  intros Hbody. induction l as [|x l IH]; simpl.
  - apply (emits_ret P tt).
  - apply emits_bind; auto.
Qed.

Lemma emits_writerow csv_path fieldnames rowdict :
  emits is_file_event (writerow w csv_path fieldnames rowdict).
Proof.
  apply emits_bind; [apply emits_lift|].
  intros cells. apply emits_fs_call. exact I.
Qed.

Lemma emits_write_artists_csv artists csv_path :
  emits is_file_event (_write_artists_csv w artists csv_path).
Proof.
  repeat (apply emits_bind; [apply emits_fs_call; exact I|intros _]).
  apply emits_io_for. intros artist.
  apply emits_bind; [apply emits_lift|].
  intros row. apply emits_writerow.
Qed.

Lemma emits_write_albums_csv albums csv_path :
  emits is_file_event (_write_albums_csv w albums csv_path).
Proof.
  repeat (apply emits_bind; [apply emits_fs_call; exact I|intros _]).
  apply emits_io_for. intros album.
  apply emits_bind; [apply emits_lift|].
  intros row. apply emits_writerow.
Qed.

Lemma emits_collect self gen : emits is_http (collect w self gen).
Proof.
  intros st. unfold collect. destruct (gen _) as [events how]. simpl.
  eexists. split; [reflexivity|].
  induction (queries_of events); simpl; constructor; [exact I|assumption].
Qed.

(** X14. In every export the effects come in this order: the creation
    of the directory, then the requests, then the files.  No request is
    sent once a file has been opened, and the directory is created at most
    once, before the first request. *)
Theorem export_effects_are_ordered
    (fuel : nat) (self : LastFMLibraryExporter)
    (output_dir base_name : string) (write_json write_csv : bool)
    (artists_per_page albums_per_page : Z) (st : io_state) :
  exists directory requests files,
    log (fst (export_library w fuel self output_dir base_name write_json
                             write_csv artists_per_page albums_per_page st))
    = log st ++ directory ++ requests ++ files
    /\ (directory = [] \/ directory = [Mkdir output_dir])
    /\ Forall is_http requests
    /\ Forall is_file_event files.
Proof.
  unfold export_library. rewrite io_bind_eq.
  destruct (fs_call w (Mkdir output_dir) st) as [st1 o1] eqn:Hmkdir.
  unfold fs_call in Hmkdir.
  destruct (fs_faults w (fs_calls st)); injection Hmkdir as <- <-.
  { exists [], [], []. simpl. rewrite app_nil_r. auto. }
  rewrite io_bind_eq.
  destruct (emits_collect (client self)
              (fun rs => _iter_paginated (client self) "library.getartists"
                           (username self) "artists" "artist"
                           artists_per_page ∅ rs fuel)
              {| requests_sent := requests_sent st;
                 fs_calls := S (fs_calls st);
                 log := log st ++ [Mkdir output_dir] |})
    as (gets1 & Hlog1 & Hgets1).
  fold (get_user_artists w (client self) fuel (username self)
          artists_per_page) in Hlog1 |- *.
  destruct (get_user_artists w (client self) fuel (username self)
              artists_per_page _) as [st2 [artists|e|]];
    simpl in Hlog1;
    [|exists [Mkdir output_dir], gets1, []; simpl; rewrite Hlog1,
        <- app_assoc, app_nil_r; auto
     |exists [Mkdir output_dir], gets1, []; simpl; rewrite Hlog1,
        <- app_assoc, app_nil_r; auto].
  rewrite io_bind_eq.
  destruct (emits_collect (client self)
              (fun rs => _iter_paginated (client self) "library.getalbums"
                           (username self) "albums" "album"
                           albums_per_page ∅ rs fuel) st2)
    as (gets2 & Hlog2 & Hgets2).
  change (collect w (client self) _ st2)
    with (get_user_albums w (client self) fuel (username self)
            albums_per_page None st2) in Hlog2.
  destruct (get_user_albums w (client self) fuel (username self)
              albums_per_page None st2) as [st3 [albums|e|]];
    simpl in Hlog2;
    [|exists [Mkdir output_dir], (gets1 ++ gets2), []; simpl;
      rewrite Hlog2, Hlog1, <- !app_assoc, app_nil_r;
      repeat split; auto; apply Forall_app; auto
     |exists [Mkdir output_dir], (gets1 ++ gets2), []; simpl;
      rewrite Hlog2, Hlog1, <- !app_assoc, app_nil_r;
      repeat split; auto; apply Forall_app; auto].
  match goal with |- context [(?m ≫= ?f) st3] =>
    destruct (emits_bind is_file_event m f) with (st := st3)
      as (files & Hfiles & HPfiles)
  end.
  - intros st0. exists []. rewrite app_nil_r. split; [reflexivity|constructor].
  - intros exported_at. apply emits_bind.
    + destruct write_json; [|apply emits_ret].
      repeat (apply emits_bind; [apply emits_fs_call; exact I|intros _]).
      apply emits_ret.
    + intros json_file. apply emits_bind; [|intros; apply emits_ret].
      destruct write_csv; [|apply emits_ret].
      apply emits_bind; [apply emits_write_artists_csv|intros _].
      apply emits_bind; [apply emits_write_albums_csv|intros _].
      apply emits_ret.
  - exists [Mkdir output_dir], (gets1 ++ gets2), files.
    rewrite Hfiles, Hlog2, Hlog1, <- !app_assoc.
    repeat split; auto. apply Forall_app; auto.
Qed.

End ExportExtras.

(** ** The window *)


(** What makes the reading of the total fail is an attribute lookup on
    something that is no mapping, or an infinite float. *)
Lemma read_total_pages_raises {rt : Runtime} (container : value) (e : exn) :
  read_total_pages container = Raise e ->
  e = AttributeError \/ e = OverflowError.
Proof.
  unfold read_total_pages, total_pages_field, mbind, result_bind, py_get.
  destruct container as [| | | | | |c]; try (intros [= <-]; auto).
  destruct (default (VDict ∅) (c !! "@attr")) as [| | | | | |attr];
    try (intros [= <-]; auto).
  destruct (py_or _ _) as [|b|z|f|s|l|d]; simpl; try discriminate.
  - destruct f; try discriminate. intros [= <-]. auto.
  - destruct (int_of_str s); discriminate.
Qed.

Section FirstRequest.
Context {rt : Runtime}.
Variable self : LastFMClient.
Variables (method_name user root_key list_key : string).
Variable limit_per_page : Z.
Variable extra_params : gmap string value.
Variable responses : nat -> http_outcome.


(** The run when the total cannot be read on the first page. *)
Lemma iter_paginated_first_total_fails container items (e : exn)
    (fuel : nat) :
  fetch_page method_name root_key list_key (responses 0)
  = Ok (container, items) ->
  read_total_pages container = Raise e ->
  _iter_paginated self method_name user root_key list_key limit_per_page
                  extra_params responses (S fuel)
  = (page_events self method_name user limit_per_page extra_params 1 items,
     Failed e).
Proof.
  intros Hpage Htotal. unfold _iter_paginated.
  rewrite paginate_S, (loop_body_page _ _ _ _ _ _ _ _ _ _ _ _ _ Hpage).
  rewrite Htotal. reflexivity.
Qed.

End FirstRequest.

Section GuiExtras.
Context {rt : Runtime} {host : Host}.
Variable w : World.

Lemma truthy_str (s : string) : truthy (VStr s) = negb (String.eqb s "").
Proof. reflexivity. Qed.

(** With the three fields filled in, the handler is the export and what
    follows it. *)
Lemma on_export_clicked_filled_in (fuel : nat) (self : MainWindow)
    (st : io_state) :
  filled_in self ->
  on_export_clicked w fuel self st
  = let started := [SetEnabled false; ShowMessage "Exporting..."] in
    match export_library w fuel (entered_exporter self)
            (entered_directory self) (entered_base_name self)
            (asks_json self) (asks_csv self) 1000 1000 st with
    | (st', Raised (LastFMError msg)) =>
        (started
         ++ [MessageBoxCritical "Last.fm error"
               ("An error occurred while talking to Last.fm:"
                +:+ newline +:+ newline +:+ msg);
             ShowMessage "Error";
             SetEnabled true],
         (st', Returned tt))
    | (st', Raised (OSError msg)) =>
        (started
         ++ [MessageBoxCritical "File error"
               ("An error occurred while writing files:"
                +:+ newline +:+ newline +:+ msg);
             ShowMessage "Error";
             SetEnabled true],
         (st', Returned tt))
    | (st', Raised e) =>
        (started ++ [SetEnabled true], (st', Raised e))
    | (st', Returned result) =>
        (started
         ++ [MessageBoxInformation "Export complete"
               (export_summary (py_strip (username_edit self)) result);
             ShowMessage "Export complete";
             SetEnabled true],
         (st', Returned tt))
    | (st', OutOfFuel) => (started, (st', OutOfFuel))
    end.
Proof.
  intros (Hkey & Huser & Hdir).
  apply String.eqb_neq in Hkey, Huser, Hdir.
  unfold on_export_clicked, entered_exporter, entered_directory,
    entered_base_name, asks_json, asks_csv.
  rewrite !truthy_str, Hkey, Huser, Hdir. cbn [negb].
  destruct (String.eqb (py_strip (base_name_edit self)) ""); reflexivity.
Qed.

(** X15. When the API key, the user name or the output directory is
    empty once the white space around it is stripped, the handler shows
    one warning, named after the first such field in that order, and does
    nothing else: no request, no call into the file system, and the
    button is not touched. *)
Theorem missing_field_only_warns (fuel : nat) (self : MainWindow)
    (st : io_state) :
  ~ filled_in self ->
  on_export_clicked w fuel self st
  = ([if String.eqb (py_strip (api_key_edit self)) ""
      then MessageBoxWarning "Missing API key"
             "Please enter your Last.fm API key."
      else if String.eqb (py_strip (username_edit self)) ""
      then MessageBoxWarning "Missing username"
             "Please enter the Last.fm username."
      else MessageBoxWarning "Missing output directory"
             "Please choose an output directory."],
     (st, Returned tt)).
Proof.
  intros Hmissing. unfold on_export_clicked. rewrite !truthy_str.
  destruct (String.eqb_spec (py_strip (api_key_edit self)) "") as [|Hkey];
    [reflexivity|].
  destruct (String.eqb_spec (py_strip (username_edit self)) "") as [|Huser];
    [reflexivity|].
  destruct (String.eqb_spec (py_strip (output_dir_edit self)) "") as [|Hdir];
    [reflexivity|].
  exfalso. apply Hmissing. repeat split; assumption.
Qed.

(** X16. With the three fields filled in, a handler that ends has
    disabled the button first, shown [Exporting...] next and enabled the
    button again last, whatever the export did; between the two it shows
    one box and one status, or nothing at all, and it shows nothing
    exactly when an exception leaves the handler. *)
Theorem export_button_is_released (fuel : nat) (self : MainWindow)
    (st : io_state) :
  filled_in self ->
  snd (snd (on_export_clicked w fuel self st)) <> OutOfFuel ->
  exists middle,
    fst (on_export_clicked w fuel self st)
    = SetEnabled false :: ShowMessage "Exporting..." :: middle
      ++ [SetEnabled true]
    /\ ((middle = []
         /\ exists e, snd (snd (on_export_clicked w fuel self st)) = Raised e)
        \/ (snd (snd (on_export_clicked w fuel self st)) = Returned tt
            /\ exists title text status,
                 (middle = [MessageBoxCritical title text; ShowMessage status]
                  \/ middle = [MessageBoxInformation title text;
                               ShowMessage status]))).
Proof.
  intros Hfilled. rewrite (on_export_clicked_filled_in _ _ _ Hfilled).
  cbv zeta.
  destruct (export_library _ _ _ _ _ _ _ _ _ _) as [st' [result|e|]];
    [| destruct e |]; cbn [fst snd app]; intros Hends;
    try (exfalso; apply Hends; reflexivity);
    try (exists []; split; [reflexivity|]; left; split; [reflexivity|];
         eexists; reflexivity);
    eexists [_; _]; (split; [reflexivity|]); right;
    (split; [reflexivity|]); do 3 eexists; eauto.
Qed.


(** X18. When the first page of artists arrives but its total cannot be
    read, the exception is an [AttributeError] or an [OverflowError], it
    is neither of the two kinds the handler catches, and it leaves the
    handler: no box and no status follow [Exporting...], only the button
    is enabled again. *)
Theorem unexpected_failure_leaves_the_handler (fuel : nat)
    (self : MainWindow) (st : io_state) (container : value)
    (items : list value) (e : exn) :
  filled_in self ->
  fs_faults w (fs_calls st) = None ->
  fetch_page "library.getartists" "artists" "artist"
             (responses w (requests_sent st)) = Ok (container, items) ->
  read_total_pages container = Raise e ->
  1 <= fuel ->
  (e = AttributeError \/ e = OverflowError)
  /\ on_export_clicked w fuel self st
     = ([SetEnabled false; ShowMessage "Exporting..."; SetEnabled true],
        ({| requests_sent := requests_sent st + 1;
            fs_calls := S (fs_calls st);
            log := log st
                   ++ [Mkdir (entered_directory self);
                       HttpGet API_ROOT
                         (request_query (client (entered_exporter self))
                            "library.getartists"
                            (page_params
                               (py_strip (username_edit self)) 1000 ∅ 1))
                         DEFAULT_TIMEOUT] |},
         Raised e)).
Proof.
  intros Hfilled Hmkdir Hpage Htotal Hfuel.
  pose proof (read_total_pages_raises _ _ Htotal) as Hkind.
  split; [exact Hkind|].
  rewrite (on_export_clicked_filled_in _ _ _ Hfilled).
  destruct fuel as [|fuel]; [lia|].
  unfold export_library.
  rewrite (io_bind_returned _ _ _ _ _ (fs_call_ok w _ _ Hmkdir)).
  rewrite io_bind_eq. unfold get_user_artists, collect.
  cbn [requests_sent fs_calls log].
  rewrite (iter_paginated_first_total_fails _ _ _ _ _ _ _ _
             container items e fuel)
    by (try rewrite Nat.add_0_r; assumption).
  rewrite queries_of_page. cbn [length map]. rewrite <- app_assoc.
  destruct Hkind as [-> | ->]; reflexivity.
Qed.

(** X19. When the directory is made, both collections are fetched and
    the file system meets no fault, the handler reports [Export complete]
    with the user, the two counts and one line for each file written:
    the document for the choices 0 and 2, the two tables for 1 and 2, and
    no file at all for any other choice; the files are named after the
    base name, or after [lastfm_export] when that field is empty. *)
Theorem export_complete_names_the_files (fuel : nat) (self : MainWindow)
    (st st1 st2 st3 : io_state) (artists albums : list (gmap string value)) :
  filled_in self ->
  fs_call w (Mkdir (entered_directory self)) st = (st1, Returned tt) ->
  get_user_artists w (client (entered_exporter self)) fuel
                   (py_strip (username_edit self)) 1000 st1
  = (st2, Returned (VDict <$> artists)) ->
  get_user_albums w (client (entered_exporter self)) fuel
                  (py_strip (username_edit self)) 1000 None st2
  = (st3, Returned (VDict <$> albums)) ->
  (forall k, fs_faults w k = None) ->
  let file suffix :=
    path_join (entered_directory self)
              (entered_base_name self +:+ suffix) in
  let document :=
    VDict (export_payload (py_strip (username_edit self)) (utc_now w)
                          (VDict <$> artists) (VDict <$> albums)) in
  exists st',
    on_export_clicked w fuel self st
    = ([SetEnabled false; ShowMessage "Exporting...";
        MessageBoxInformation "Export complete"
          (String.concat newline
             (["Exported library for user: "
               +:+ py_strip (username_edit self);
               "Artists: " +:+ py_str (VInt (Z.of_nat (length artists)));
               "Albums:  " +:+ py_str (VInt (Z.of_nat (length albums)))]
              ++ (if asks_json self
                  then ["JSON file: " +:+ file ".json"] else [])
              ++ (if asks_csv self
                  then ["Artists CSV: " +:+ file "_artists.csv";
                        "Albums CSV:  " +:+ file "_albums.csv"]
                  else [])));
        ShowMessage "Export complete";
        SetEnabled true],
       (st', Returned tt))
    /\ log st'
       = log st3
         ++ (if asks_json self
             then [OpenW (file ".json");
                   WriteText (file ".json") (json_dumps document)]
             else [])
         ++ (if asks_csv self
             then artists_table (file "_artists.csv") artists
                  ++ albums_table (file "_albums.csv") albums
             else []).
Proof.
  intros Hfilled Hmkdir Hartists Halbums Hfs file document.
  destruct (export_library_success w fuel (entered_exporter self)
              (entered_directory self) (entered_base_name self)
              (asks_json self) (asks_csv self) 1000 1000
              st st1 st2 st3 artists albums Hmkdir Hartists Halbums Hfs)
    as (st' & Hexport & Hlog & _).
  exists st'. split; [|exact Hlog].
  rewrite (on_export_clicked_filled_in _ _ _ Hfilled), Hexport.
  cbv zeta. unfold export_summary, file.
  cbn [json_path artists_csv_path albums_csv_path artists_count albums_count].
  destruct (asks_json self), (asks_csv self); reflexivity.
Qed.

(** X20. When the output directory cannot be created and the fault is
    an [OSError], the handler ends normally after showing its message in
    the box [File error] and the status [Error]; no request was sent and
    nothing was logged. *)
Theorem file_failure_is_reported (fuel : nat) (self : MainWindow)
    (st : io_state) (msg : string) :
  filled_in self ->
  fs_faults w (fs_calls st) = Some (OSError msg) ->
  on_export_clicked w fuel self st
  = ([SetEnabled false; ShowMessage "Exporting...";
      MessageBoxCritical "File error"
        ("An error occurred while writing files:"
         +:+ newline +:+ newline +:+ msg);
      ShowMessage "Error";
      SetEnabled true],
     ({| requests_sent := requests_sent st;
         fs_calls := S (fs_calls st);
         log := log st |},
      Returned tt)).
Proof.
  intros Hfilled Hfault.
  rewrite (on_export_clicked_filled_in _ _ _ Hfilled).
  unfold export_library. rewrite io_bind_eq. unfold fs_call.
  rewrite Hfault. reflexivity.
Qed.

End GuiExtras.

(** ** The further properties on the sample data *)

Lemma query_parameters_override_witness :
  request_query sample_client "library.getalbums"
    (page_params "alice" 1000
       {[ "artist" := VStr "Low"; "page" := VInt 7 ]} 2) !! "page"
  = Some (VInt 7).
Proof.
  rewrite (query_parameters_override sample_client "library.getalbums"
             "alice" 1000 {[ "artist" := VStr "Low"; "page" := VInt 7 ]}
             2 "page").
  - vm_compute. reflexivity.
  - split; vm_compute; reflexivity.
Defined.

Lemma requests_are_consecutive_pages_witness :
  exists m,
    queries_of (fst (_iter_paginated (rt := Reference.runtime) sample_client
                       "library.getartists" "alice" "artists" "artist"
                       1000 ∅ endless_pages 5))
    = (fun j =>
         request_query sample_client "library.getartists"
           (page_params "alice" 1000 ∅ (Z.of_nat j + 1)%Z)) <$> seq 0 m
    /\ m <= 5
    /\ (1 <= 5 -> 1 <= m)
    /\ (forall container items T,
          fetch_page (rt := Reference.runtime) "library.getartists"
            "artists" "artist" (endless_pages 0) = Ok (container, items) ->
          read_total_pages (rt := Reference.runtime) container = Ok T ->
          (Z.of_nat m <= Z.max 1 T)%Z).
Proof.
  apply (requests_are_consecutive_pages (rt := Reference.runtime)
           sample_client "library.getartists" "alice" "artists" "artist"
           1000 ∅ endless_pages 5).
  split; reflexivity.
Defined.

Lemma first_page_attributes_must_be_a_mapping_witness :
  _iter_paginated (rt := Reference.runtime) sample_client
    "library.getartists" "alice" "artists" "artist" 1000 ∅
    null_attributes 3
  = (page_events sample_client "library.getartists" "alice" 1000 ∅ 1
       [radiohead], Failed AttributeError).
Proof.
  apply (first_page_attributes_must_be_a_mapping (rt := Reference.runtime)
           sample_client "library.getartists" "alice" "artists" "artist"
           1000 ∅ null_attributes
           {[ "artist" := VList [radiohead]; "@attr" := VNone ]}
           VNone [radiohead] 3).
  - split; reflexivity.
  - vm_compute. reflexivity.
  - vm_compute. reflexivity.
  - reflexivity.
  - lia.
Defined.

Lemma malformed_page_raises_builtin_error_witness :
  paginate (rt := Reference.runtime) sample_client "library.getartists"
    "alice" "artists" "artist" 1000 ∅ scalar_items 3 0 1%Z None
  = ([Requested (request_query sample_client "library.getartists"
                   (page_params "alice" 1000 ∅ 1))],
     Failed TypeError).
Proof.
  refine (proj2 (proj2 (malformed_page_raises_builtin_error
                          (rt := Reference.runtime) sample_client
                          "library.getartists" "alice" "artists" "artist"
                          1000 ∅ scalar_items 0 1%Z None 2 _))
                {[ "artists" := VDict {[ "artist" := VInt 5 ]} ]}
                {[ "artist" := VInt 5 ]} (VInt 5) _ _ _ _).
  - split; reflexivity.
  - vm_compute. reflexivity.
  - vm_compute. reflexivity.
  - vm_compute. reflexivity.
  - reflexivity.
Defined.

Lemma later_failure_ends_the_run_witness :
  let run :=
    _iter_paginated (rt := Reference.runtime) sample_client
      "library.getartists" "alice" "artists" "artist" 1000 ∅
      second_page_fails 5 in
  run
  = (pages_events sample_client "library.getartists" "alice" 1000 ∅
       1 0 1%Z two_pages_items
     ++ [Requested (request_query sample_client "library.getartists"
                      (page_params "alice" 1000 ∅ (Z.of_nat 1 + 1)))],
     Failed (LastFMError "HTTP error from Last.fm: 503 Service Unavailable"))
  /\ items_of (fst run) = concat (two_pages_items <$> seq 0 1)
  /\ length (queries_of (fst run)) = 2.
Proof.
  intros run.
  apply (later_failure_ends_the_run (rt := Reference.runtime) sample_client
           "library.getartists" "alice" "artists" "artist" 1000 ∅
           second_page_fails 1 3 (fun _ => three_pages_container)
           two_pages_items
           (LastFMError "HTTP error from Last.fm: 503 Service Unavailable")
           5).
  - split; reflexivity.
  - intros [|j] Hj; [vm_compute; reflexivity | lia].
  - vm_compute. reflexivity.
  - lia.
  - lia.
  - vm_compute. reflexivity.
  - lia.
Defined.

Lemma get_user_artists_returns_all_pages_witness :
  get_user_artists (rt := Reference.runtime) sample_world sample_client 5
    "alice" 1000 initial_state
  = ({| requests_sent := requests_sent initial_state + Z.to_nat 2;
        fs_calls := fs_calls initial_state;
        log := log initial_state
               ++ ((fun p =>
                      HttpGet API_ROOT
                        (request_query sample_client "library.getartists"
                           (page_params "alice" 1000 ∅ p))
                        (timeout sample_client))
                     <$> seqZ 1 2) |},
     Returned (concat (two_pages_items <$> seq 0 (Z.to_nat 2)))).
Proof.
  apply (get_user_artists_returns_all_pages (rt := Reference.runtime)
           sample_world sample_client 5 "alice" 1000 initial_state 2
           (VStr "2") two_pages_container two_pages_items).
  - intros [|[|k]] Hk; [vm_compute; reflexivity | vm_compute; reflexivity |].
    simpl in Hk. lia.
  - vm_compute. reflexivity.
  - vm_compute. reflexivity.
  - lia.
  - simpl. lia.
Defined.

Lemma get_user_artists_is_all_or_nothing_witness :
  get_user_artists (rt := Reference.runtime) flaky_world sample_client 5
    "alice" 1000 initial_state
  = ({| requests_sent := requests_sent initial_state + 2;
        fs_calls := fs_calls initial_state;
        log := log initial_state
               ++ ((fun p =>
                      HttpGet API_ROOT
                        (request_query sample_client "library.getartists"
                           (page_params "alice" 1000 ∅ p))
                        (timeout sample_client))
                     <$> seqZ 1 (Z.of_nat 2)) |},
     Raised (LastFMError "HTTP error from Last.fm: 503 Service Unavailable")).
Proof.
  apply (get_user_artists_is_all_or_nothing (rt := Reference.runtime)
           flaky_world sample_client 5 "alice" 1000 initial_state 1 3
           (fun _ => three_pages_container) two_pages_items
           (LastFMError "HTTP error from Last.fm: 503 Service Unavailable")).
  - intros [|j] Hj; [vm_compute; reflexivity | lia].
  - vm_compute. reflexivity.
  - lia.
  - lia.
  - vm_compute. reflexivity.
  - lia.
Defined.

Lemma export_library_writes_what_is_asked_witness :
  let st1 := fst (fs_call sample_world (Mkdir "out") initial_state) in
  let st2 :=
    fst (get_user_artists (rt := Reference.runtime) sample_world
           sample_client 5 "alice" 1000 st1) in
  let st3 :=
    fst (get_user_albums (rt := Reference.runtime) sample_world
           sample_client 5 "alice" 1000 None st2) in
  let artists := [radiohead_fields; portishead_fields; low_fields] in
  let albums := [ok_computer_fields; dummy_fields] in
  let json_file := Reference.joinpath "out" ("lib" +:+ ".json") in
  let document :=
    VDict (export_payload "alice" (utc_now sample_world)
                          (VDict <$> artists) (VDict <$> albums)) in
  exists st',
    export_library (rt := Reference.runtime) sample_world 5 sample_exporter
      "out" "lib" true false 1000 1000 initial_state
    = (st', Returned
              {| artists_count := length artists;
                 albums_count := length albums;
                 json_path := Some json_file;
                 artists_csv_path := None;
                 albums_csv_path := None |})
    /\ log st'
       = log st3
         ++ [OpenW json_file;
             WriteText json_file (Reference.dumps document)]
         ++ []
    /\ requests_sent st' = requests_sent st3.
Proof.
  intros st1 st2 st3 artists albums json_file document.
  apply (export_library_writes_what_is_asked (rt := Reference.runtime)
           sample_world 5 sample_exporter "out" "lib" true false 1000 1000
           initial_state st1 st2 st3 artists albums).
  - reflexivity.
  - vm_compute. reflexivity.
  - vm_compute. reflexivity.
  - reflexivity.
Defined.

Lemma export_stops_when_directory_fails_witness :
  export_library (rt := Reference.runtime) read_only_world 5 sample_exporter
    "out" "lib" true true 1000 1000 initial_state
  = ({| requests_sent := 0; fs_calls := 1; log := [] |},
     Raised (OSError "[Errno 30] Read-only file system: 'out'")).
Proof.
  apply (export_stops_when_directory_fails (rt := Reference.runtime)
           read_only_world 5 sample_exporter "out" "lib" true true 1000 1000
           initial_state
           (OSError "[Errno 30] Read-only file system: 'out'")).
  reflexivity.
Defined.

Lemma write_fault_keeps_earlier_files_witness :
  let st1 := fst (fs_call full_disk_world (Mkdir "out") initial_state) in
  let st2 :=
    fst (get_user_artists (rt := Reference.runtime) full_disk_world
           sample_client 5 "alice" 1000 st1) in
  let st3 :=
    fst (get_user_albums (rt := Reference.runtime) full_disk_world
           sample_client 5 "alice" 1000 None st2) in
  let json_file := Reference.joinpath "out" ("lib" +:+ ".json") in
  let document :=
    VDict (export_payload "alice" (utc_now full_disk_world)
                          [radiohead; portishead; low]
                          [ok_computer; dummy]) in
  export_library (rt := Reference.runtime) full_disk_world 5
    sample_exporter "out" "lib" true true 1000 1000 initial_state
  = ({| requests_sent := requests_sent st3;
        fs_calls := S (S (S (fs_calls st3)));
        log := log st3
               ++ [OpenW json_file;
                   WriteText json_file (Reference.dumps document)] |},
     Raised (OSError "[Errno 28] No space left on device")).
Proof.
  intros st1 st2 st3 json_file document.
  refine (proj2 (write_fault_keeps_earlier_files (rt := Reference.runtime)
                   full_disk_world 5 sample_exporter "out" "lib" true
                   1000 1000 initial_state st1 st2 st3
                   [radiohead; portishead; low] [ok_computer; dummy]
                   (OSError "[Errno 28] No space left on device") _ _ _)
                _ _ _).
  - reflexivity.
  - vm_compute. reflexivity.
  - vm_compute. reflexivity.
  - vm_compute. reflexivity.
  - vm_compute. reflexivity.
  - vm_compute. reflexivity.
Defined.

Lemma csv_writer_stops_at_non_mapping_witness :
  _write_artists_csv (rt := Reference.runtime) sample_world
    ((VDict <$> [radiohead_fields]) ++ VStr "Low" :: [portishead])
    "out/lib_artists.csv" initial_state
  = ({| requests_sent := requests_sent initial_state;
        fs_calls := S (S (fs_calls initial_state)) + length [radiohead_fields];
        log := log initial_state
               ++ artists_table (rt := Reference.runtime)
                    "out/lib_artists.csv" [radiohead_fields] |},
     Raised AttributeError)
  /\ _write_albums_csv (rt := Reference.runtime) sample_world
       ((VDict <$> [radiohead_fields]) ++ VStr "Low" :: [portishead])
       "out/lib_artists.csv" initial_state
     = ({| requests_sent := requests_sent initial_state;
           fs_calls :=
             S (S (fs_calls initial_state)) + length [radiohead_fields];
           log := log initial_state
                  ++ albums_table (rt := Reference.runtime)
                       "out/lib_artists.csv" [radiohead_fields] |},
        Raised AttributeError).
Proof.
  apply (csv_writer_stops_at_non_mapping (rt := Reference.runtime)
           sample_world [radiohead_fields] (VStr "Low") [portishead]
           "out/lib_artists.csv" initial_state).
  - reflexivity.
  - reflexivity.
Defined.

Lemma missing_field_only_warns_witness :
  on_export_clicked (rt := Reference.runtime) (host := reference_host)
    sample_world 5 nameless_window initial_state
  = ([MessageBoxWarning "Missing username"
        "Please enter the Last.fm username."],
     (initial_state, Returned tt)).
Proof.
  apply (missing_field_only_warns (rt := Reference.runtime)
           (host := reference_host) sample_world 5 nameless_window
           initial_state).
  intros (_ & Huser & _). apply Huser. vm_compute. reflexivity.
Defined.

Lemma export_button_is_released_witness :
  let run :=
    on_export_clicked (rt := Reference.runtime) (host := reference_host)
      overflowing_world 5 sample_window initial_state in
  exists middle,
    fst run
    = SetEnabled false :: ShowMessage "Exporting..." :: middle
      ++ [SetEnabled true]
    /\ ((middle = [] /\ exists e, snd (snd run) = Raised e)
        \/ (snd (snd run) = Returned tt
            /\ exists title text status,
                 (middle = [MessageBoxCritical title text; ShowMessage status]
                  \/ middle = [MessageBoxInformation title text;
                               ShowMessage status]))).
Proof.
  intros run.
  apply (export_button_is_released (rt := Reference.runtime)
           (host := reference_host) overflowing_world 5 sample_window
           initial_state).
  - repeat split; intros H; vm_compute in H; discriminate H.
  - vm_compute. discriminate.
Defined.


Lemma unexpected_failure_leaves_the_handler_witness :
  (OverflowError = AttributeError \/ OverflowError = OverflowError)
  /\ on_export_clicked (rt := Reference.runtime) (host := reference_host)
       overflowing_world 5 sample_window initial_state
     = ([SetEnabled false; ShowMessage "Exporting..."; SetEnabled true],
        ({| requests_sent := requests_sent initial_state + 1;
            fs_calls := S (fs_calls initial_state);
            log := log initial_state
                   ++ [Mkdir (entered_directory (host := reference_host)
                                sample_window);
                       HttpGet API_ROOT
                         (request_query
                            (client (entered_exporter
                                       (host := reference_host)
                                       sample_window))
                            "library.getartists"
                            (page_params
                               (py_strip (Host := reference_host)
                                  (username_edit sample_window))
                               1000 ∅ 1))
                         DEFAULT_TIMEOUT] |},
         Raised OverflowError)).
Proof.
  apply (unexpected_failure_leaves_the_handler (rt := Reference.runtime)
           (host := reference_host) overflowing_world 5 sample_window
           initial_state
           (VDict {[ "artist" := VList [radiohead];
                     "@attr" :=
                       VDict {[ "totalPages" :=
                                  VFloat (S754_infinity false) ]} ]})
           [radiohead] OverflowError).
  - repeat split; intros H; vm_compute in H; discriminate H.
  - reflexivity.
  - vm_compute. reflexivity.
  - vm_compute. reflexivity.
  - lia.
Defined.

Lemma export_complete_names_the_files_witness :
  let st1 := fst (fs_call sample_world (Mkdir "out") initial_state) in
  let st2 :=
    fst (get_user_artists (rt := Reference.runtime) sample_world
           sample_client 5 "alice" 1000 st1) in
  let st3 :=
    fst (get_user_albums (rt := Reference.runtime) sample_world
           sample_client 5 "alice" 1000 None st2) in
  let artists := [radiohead_fields; portishead_fields; low_fields] in
  let albums := [ok_computer_fields; dummy_fields] in
  let document :=
    VDict (export_payload "alice" (utc_now sample_world)
                          (VDict <$> artists) (VDict <$> albums)) in
  exists st',
    on_export_clicked (rt := Reference.runtime) (host := reference_host)
      sample_world 5 sample_window initial_state
    = ([SetEnabled false; ShowMessage "Exporting...";
        MessageBoxInformation "Export complete"
          (String.concat newline
             ["Exported library for user: alice";
              "Artists: 3";
              "Albums:  2";
              "JSON file: out/lastfm_export.json";
              "Artists CSV: out/lastfm_export_artists.csv";
              "Albums CSV:  out/lastfm_export_albums.csv"]);
        ShowMessage "Export complete";
        SetEnabled true],
       (st', Returned tt))
    /\ log st'
       = log st3
         ++ [OpenW "out/lastfm_export.json";
             WriteText "out/lastfm_export.json" (Reference.dumps document)]
         ++ artists_table (rt := Reference.runtime)
              "out/lastfm_export_artists.csv" artists
         ++ albums_table (rt := Reference.runtime)
              "out/lastfm_export_albums.csv" albums.
Proof.
  intros st1 st2 st3 artists albums document.
  apply (export_complete_names_the_files (rt := Reference.runtime)
           (host := reference_host) sample_world 5 sample_window
           initial_state st1 st2 st3 artists albums).
  - repeat split; intros H; vm_compute in H; discriminate H.
  - reflexivity.
  - vm_compute. reflexivity.
  - vm_compute. reflexivity.
  - reflexivity.
Defined.

Lemma file_failure_is_reported_witness :
  on_export_clicked (rt := Reference.runtime) (host := reference_host)
    read_only_world 5 sample_window initial_state
  = ([SetEnabled false; ShowMessage "Exporting...";
      MessageBoxCritical "File error"
        ("An error occurred while writing files:"
         +:+ newline +:+ newline
         +:+ "[Errno 30] Read-only file system: 'out'");
      ShowMessage "Error";
      SetEnabled true],
     ({| requests_sent := requests_sent initial_state;
         fs_calls := S (fs_calls initial_state);
         log := log initial_state |},
      Returned tt)).
Proof.
  apply (file_failure_is_reported (rt := Reference.runtime)
           (host := reference_host) read_only_world 5 sample_window
           initial_state "[Errno 30] Read-only file system: 'out'").
  - repeat split; intros H; vm_compute in H; discriminate H.
  - reflexivity.
Defined.
